(** * CANFD_Rx.py: the frame decoder of [CANFDReader]

    A shallow embedding of the pure methods of [CANFDReader]
    (src/CANFD_Rx.py): [get_type_string], [get_id_string],
    [get_time_string], [get_data_string] and [get_length_from_dlc], and of
    the methods that print and talk to the channel, as functions on the
    state of the channel and the lines printed: [initialize_channel],
    [read_messages], [process_message_fd], [show_status] and
    [get_formatted_error].

    Python integers are [Z]; the operator [&] on Python integers is
    [Z.land] (both are two's complement on unbounded integers); a payload
    is a list of integers; a Python [str] is a [string]; a Python [float]
    is an IEEE 754 binary64 number, a [spec_float] with 53 bits of
    precision. *)

From Stdlib Require Import ZArith List String Ascii Bool Lia.
From Stdlib Require Import Hexadecimal HexadecimalFacts HexadecimalPos HexadecimalZ.
From Stdlib Require Import Decimal DecimalString DecimalPos DecimalN.
From Stdlib Require Import SpecFloat.
Import ListNotations.

Local Open Scope string_scope.
Local Open Scope Z_scope.

(** ** Python built-ins used by the decoder *)

(** The digits of the format specification [X]: hexadecimal, upper case. *)
Fixpoint string_of_hex_uint_X (d : Hexadecimal.uint) : string :=
  match d with
  | Hexadecimal.Nil => ""
  | Hexadecimal.D0 d => String "0" (string_of_hex_uint_X d)
  | Hexadecimal.D1 d => String "1" (string_of_hex_uint_X d)
  | Hexadecimal.D2 d => String "2" (string_of_hex_uint_X d)
  | Hexadecimal.D3 d => String "3" (string_of_hex_uint_X d)
  | Hexadecimal.D4 d => String "4" (string_of_hex_uint_X d)
  | Hexadecimal.D5 d => String "5" (string_of_hex_uint_X d)
  | Hexadecimal.D6 d => String "6" (string_of_hex_uint_X d)
  | Hexadecimal.D7 d => String "7" (string_of_hex_uint_X d)
  | Hexadecimal.D8 d => String "8" (string_of_hex_uint_X d)
  | Hexadecimal.D9 d => String "9" (string_of_hex_uint_X d)
  | Hexadecimal.Da d => String "A" (string_of_hex_uint_X d)
  | Hexadecimal.Db d => String "B" (string_of_hex_uint_X d)
  | Hexadecimal.Dc d => String "C" (string_of_hex_uint_X d)
  | Hexadecimal.Dd d => String "D" (string_of_hex_uint_X d)
  | Hexadecimal.De d => String "E" (string_of_hex_uint_X d)
  | Hexadecimal.Df d => String "F" (string_of_hex_uint_X d)
  end.

(** [f"{n:X}"] for a Python integer [n]: its hexadecimal digits, most
    significant first, upper case, with a minus sign for a negative [n]. *)
Definition format_X (n : Z) : string :=
  match Z.to_hex_int n with
  | Hexadecimal.Pos d => string_of_hex_uint_X d
  | Hexadecimal.Neg d => String "-" (string_of_hex_uint_X d)
  end.

(** Reading back a string of upper-case hexadecimal digits. *)
Fixpoint hex_uint_of_string_X (s : string) : option Hexadecimal.uint :=
  match s with
  | EmptyString => Some Hexadecimal.Nil
  | String c s' =>
      match hex_uint_of_string_X s' with
      | None => None
      | Some d =>
          (match c with
           | "0" => Some (Hexadecimal.D0 d) | "1" => Some (Hexadecimal.D1 d)
           | "2" => Some (Hexadecimal.D2 d) | "3" => Some (Hexadecimal.D3 d)
           | "4" => Some (Hexadecimal.D4 d) | "5" => Some (Hexadecimal.D5 d)
           | "6" => Some (Hexadecimal.D6 d) | "7" => Some (Hexadecimal.D7 d)
           | "8" => Some (Hexadecimal.D8 d) | "9" => Some (Hexadecimal.D9 d)
           | "A" => Some (Hexadecimal.Da d) | "B" => Some (Hexadecimal.Db d)
           | "C" => Some (Hexadecimal.Dc d) | "D" => Some (Hexadecimal.Dd d)
           | "E" => Some (Hexadecimal.De d) | "F" => Some (Hexadecimal.Df d)
           | _ => None
           end)%char
      end
  end.

(** The integer a string of upper-case hexadecimal digits denotes, with an
    optional leading minus sign; [None] when the string has no digit or
    holds any other character. *)
Definition hex_value_X (s : string) : option Z :=
  match s with
  | EmptyString => None
  | String "-" EmptyString => None
  | String "-" s' =>
      option_map (fun d => Z.opp (Z.of_hex_uint d)) (hex_uint_of_string_X s')
  | _ => option_map Z.of_hex_uint (hex_uint_of_string_X s)
  end.

(** A rendering is padded when a zero precedes another digit. *)
Definition no_leading_zero (s : string) : bool :=
  match s with
  | String "0" (String _ _) => false
  | String "-" (String "0" (String _ _)) => false
  | _ => true
  end.

(** [sep.join(parts)]. *)
Fixpoint join (sep : string) (parts : list string) : string :=
  match parts with
  | [] => ""
  | [p] => p
  | p :: rest => p ++ sep ++ join sep rest
  end.

(** [data[:stop]]: a negative [stop] counts from the end, and both ends are
    clamped to the sequence, so the slice never fails. *)
Definition slice_to {A : Type} (data : list A) (stop : Z) : list A :=
  if stop <? 0
  then firstn (Z.to_nat (Z.of_nat (List.length data) + stop)) data
  else firstn (Z.to_nat stop) data.

(** [c_ulonglong.from_buffer_copy(time).value]: the unsigned 64-bit
    integer the buffer [time] holds. The buffer is given by the integer it
    was filled with, which a [c_ulonglong] keeps modulo [2^64]. *)
Definition c_ulonglong_value (time : Z) : Z := time mod 2 ^ 64.

(** Python's [float] is IEEE 754 binary64: 53 bits of mantissa, and
    [2^1024] is the first power of two out of range. *)
Definition prec : Z := 53.
Definition emax : Z := 1024.

(** The conversion of an integer operand of [/] to [float]: the nearest
    binary64 number, ties to even. *)
Definition float_of_int (n : Z) : spec_float :=
  binary_normalize prec emax n 0 false.

(** [x / y] on two floats (for a divisor that is not zero). *)
Definition float_truediv (x y : spec_float) : spec_float :=
  SFdiv prec emax x y.

(** [a / b] rounded to the nearest integer, ties to even, for [0 < b]. *)
Definition round_half_even_div (a b : Z) : Z :=
  let (q, r) := Z.div_eucl a b in
  match 2 * r ?= b with
  | Lt => q
  | Gt => q + 1
  | Eq => if Z.even q then q else q + 1
  end.

(** The number of tenths nearest to [m * 2^e], ties to even. *)
Definition tenths (m : positive) (e : Z) : Z :=
  if 0 <=? e
  then 10 * Z.pos m * 2 ^ e
  else round_half_even_div (10 * Z.pos m) (2 ^ (- e)).

(** [str(n)] for a natural number [n]. *)
Definition decimal (n : Z) : string :=
  NilEmpty.string_of_uint (N.to_uint (Z.to_N n)).

(** A number of tenths written with one digit after the point. *)
Definition fixed_1 (q : Z) : string :=
  decimal (q / 10) ++ "." ++ decimal (q mod 10).

(** [f"{x:.1f}"] for a float [x]: the decimal number with one fractional
    digit nearest to the exact value of [x], ties to even. *)
Definition format_1f (x : spec_float) : string :=
  match x with
  | S754_nan => "nan"
  | S754_infinity false => "inf"
  | S754_infinity true => "-inf"
  | S754_zero false => "0.0"
  | S754_zero true => "-0.0"
  | S754_finite false m e => fixed_1 (tenths m e)
  | S754_finite true m e => "-" ++ fixed_1 (tenths m e)
  end.

(** ** The decoder *)

Section CANFDReader.

(** [PCAN_MESSAGE_EXTENDED.value] and [PCAN_MESSAGE_RTR.value]: the two
    flag masks come from the PCANBasic binding, which the reader imports;
    the decoder is parametric in them. *)
Variable PCAN_MESSAGE_EXTENDED : Z.
Variable PCAN_MESSAGE_RTR : Z.

(** [(msgtype & PCAN_MESSAGE_EXTENDED.value) == PCAN_MESSAGE_EXTENDED.value] *)
Definition is_extended (msgtype : Z) : bool :=
  Z.land msgtype PCAN_MESSAGE_EXTENDED =? PCAN_MESSAGE_EXTENDED.

Definition get_type_string (msgtype : Z) : string :=
  if Z.land msgtype PCAN_MESSAGE_EXTENDED =? PCAN_MESSAGE_EXTENDED then
    if Z.land msgtype PCAN_MESSAGE_RTR =? PCAN_MESSAGE_RTR
    then "RTR Frame (Extended ID)"
    else "Extended Frame"
  else if Z.land msgtype PCAN_MESSAGE_RTR =? PCAN_MESSAGE_RTR
  then "RTR Frame (Standard ID)"
  else "Standard Frame".

Definition get_id_string (id msgtype : Z) : string :=
  if Z.land msgtype PCAN_MESSAGE_EXTENDED =? PCAN_MESSAGE_EXTENDED
  then format_X id
  else format_X (Z.land id 0x7FF).

Definition get_data_string (data : list Z) (dlc msgtype : Z) : string :=
  if Z.land msgtype PCAN_MESSAGE_RTR =? PCAN_MESSAGE_RTR
  then "Remote Request"
  else join " " (map format_X (slice_to data dlc)).

End CANFDReader.

(** The float bound to [dSeconds] in [get_time_string]. *)
Definition dSeconds (time : Z) : spec_float :=
  float_truediv (float_of_int (c_ulonglong_value time))
                (float_of_int 1000000).

Definition get_time_string (time : Z) : string :=
  format_1f (dSeconds time).

Definition get_length_from_dlc (dlc : Z) : Z :=
  if dlc <=? 8 then dlc
  else if dlc =? 9 then 12
  else if dlc =? 10 then 16
  else if dlc =? 11 then 20
  else if dlc =? 12 then 24
  else if dlc =? 13 then 32
  else if dlc =? 14 then 48
  else if dlc =? 15 then 64
  else 0.

(** Decimal digits, to state what a rendering looks like. *)
Definition is_digit (c : ascii) : bool :=
  (48 <=? Z.of_nat (nat_of_ascii c)) && (Z.of_nat (nat_of_ascii c) <=? 57).

Fixpoint all_digits (s : string) : bool :=
  match s with
  | EmptyString => true
  | String c s' => is_digit c && all_digits s'
  end.

(** The four frame types the reader reports. *)
Definition type_labels : list string :=
  ["Standard Frame"; "Extended Frame";
   "RTR Frame (Standard ID)"; "RTR Frame (Extended ID)"].

(** The byte counts a CAN FD frame can carry. *)
Definition payload_sizes : list Z :=
  [0; 1; 2; 3; 4; 5; 6; 7; 8; 12; 16; 20; 24; 32; 48; 64].

(** A receive buffer whose first twelve bytes are 1 to 12: the payload of
    a frame with DLC 9 in the 64-byte [DATA] array. *)
Definition payload_1_to_12 : list Z :=
  [1; 2; 3; 4; 5; 6; 7; 8; 9; 10; 11; 12] ++ repeat 0 52.

(** ** The reader: console output and the PCAN-Basic channel *)

(** What [print] is given: a [str], or the [bytes] of an error text. *)
Inductive PyValue :=
| PyStr (s : string)
| PyBytes (b : string).

(** The exceptions the reader can end with: [sys.exit()] raises
    [SystemExit], and [in] between [bytes] and [str] raises [TypeError]. *)
Inductive PyExn :=
| SystemExit
| TypeError.

Inductive Outcome (A : Type) :=
| Returned (a : A)
| Raised (e : PyExn).

Arguments Returned {A} a.
Arguments Raised {A} e.

(** [TPCANMsgFD]: the fields of a received frame the reader looks at. *)
Record TPCANMsgFD := {
  ID : Z;
  MSGTYPE : Z;
  DLC : Z;
  DATA : list Z
}.

(** The PCANBasic binding ([from PCANBasic import *]): its constants and
    the four calls the reader makes on the [PCANBasic] object, whose state
    (driver and hardware) is [Channel]. Each call returns its result and
    the new state. *)
Record PCANBasic := {
  Channel : Type;
  PCAN_USBBUS1 : Z;
  PCAN_ERROR_OK : Z;
  PCAN_ERROR_QRCVEMPTY : Z;
  PCAN_MESSAGE_FILTER : Z;
  PCAN_FILTER_CLOSE : Z;
  PCAN_FILTER_OPEN : Z;
  PCAN_MESSAGE_EXTENDED_value : Z;
  PCAN_MESSAGE_RTR_value : Z;
  InitializeFD : Channel -> Z -> string -> Z * Channel;
  SetValue : Channel -> Z -> Z -> Z -> Z * Channel;
  ReadFD : Channel -> Z -> (Z * TPCANMsgFD * Z) * Channel;
  GetErrorText : Channel -> Z -> Z -> (Z * PyValue) * Channel
}.

(** [str(n)] for an integer. *)
Definition str_int (n : Z) : string :=
  if n <? 0 then "-" ++ decimal (- n) else decimal n.

(** [needle in haystack] on two byte strings. *)
Fixpoint contains (needle haystack : string) : bool :=
  String.prefix needle haystack ||
  match haystack with
  | EmptyString => false
  | String _ rest => contains needle rest
  end.

Definition dashes : string :=
  "----------------------------------------------------------".

Definition equals : string :=
  "=========================================================================================".

Definition BitrateFD : string :=
  "f_clock_mhz=20, nom_brp=5, nom_tseg1=13, nom_tseg2=2, nom_sjw=2, data_brp=1, data_tseg1=7, data_tseg2=2, data_sjw=1".

Section Reader.

Variable api : PCANBasic.

(** What a method acts on: the channel behind [m_objPCANBasic] and what
    has been printed so far, oldest first. *)
Record World := {
  channel : Channel api;
  stdout : list PyValue
}.

(** A method takes the world and returns or raises, leaving a new world. *)
Definition M (A : Type) : Type := World -> Outcome A * World.

Definition ret {A : Type} (a : A) : M A := fun w => (Returned a, w).

Definition raise {A : Type} (e : PyExn) : M A := fun w => (Raised e, w).

Definition bind {A B : Type} (c : M A) (k : A -> M B) : M B :=
  fun w =>
    match c w with
    | (Returned a, w') => k a w'
    | (Raised e, w') => (Raised e, w')
    end.

Definition print (v : PyValue) : M unit :=
  fun w => (Returned tt, {| channel := channel w; stdout := stdout w ++ [v] |}).

(** A call on [m_objPCANBasic]. *)
Definition call {A : Type} (f : Channel api -> A * Channel api) : M A :=
  fun w =>
    let (a, c) := f (channel w) in
    (Returned a, {| channel := c; stdout := stdout w |}).

(** [sys.exit()] *)
Definition sys_exit {A : Type} : M A := raise SystemExit.

(** [b"..." in v]: a search in [bytes]; a [str] on the right is a
    [TypeError]. *)
Definition bytes_in (needle : string) (v : PyValue) : M bool :=
  match v with
  | PyBytes b => ret (contains needle b)
  | PyStr _ => raise TypeError
  end.

Local Notation "x <- c ;; k" := (bind c (fun x => k))
  (at level 61, c at next level, right associativity).
Local Notation "c ;; k" := (bind c (fun _ => k))
  (at level 61, right associativity).

Definition PcanHandle : Z := PCAN_USBBUS1 api.

Definition get_formatted_error (error : Z) : M PyValue :=
  stsReturn <- call (fun c => GetErrorText api c error 0x09) ;;
  if negb (fst stsReturn =? PCAN_ERROR_OK api)
  then ret (PyStr ("An error occurred. Error-code's text ("
                   ++ format_X error ++ ") couldn't be retrieved"))
  else ret (snd stsReturn).

Definition show_status (status : Z) : M unit :=
  print (PyStr equals) ;;
  error_text <- get_formatted_error status ;;
  print error_text ;;
  found <- bytes_in "Bus error" error_text ;;
  (if found : bool
   then
     print (PyStr "Suggested actions:") ;;
     print (PyStr "1. Check CAN bus termination.") ;;
     print (PyStr "2. Ensure all devices use the same bitrate.") ;;
     print (PyStr "3. Inspect cabling for loose connections.")
   else ret tt) ;;
  print (PyStr equals).

Definition initialize_channel : M unit :=
  stsResult <- call (fun c => InitializeFD api c PcanHandle BitrateFD) ;;
  (if negb (stsResult =? PCAN_ERROR_OK api)
   then
     print (PyStr "Cannot initialize. Please check the defines in the code.") ;;
     show_status stsResult ;;
     sys_exit
   else ret tt) ;;
  print (PyStr "Successfully initialized.") ;;
  stsResult <- call (fun c => SetValue api c PcanHandle
                                (PCAN_MESSAGE_FILTER api) (PCAN_FILTER_CLOSE api)) ;;
  (if negb (stsResult =? PCAN_ERROR_OK api)
   then
     print (PyStr "Cannot set message filter to close.") ;;
     show_status stsResult ;;
     sys_exit
   else ret tt) ;;
  stsResult <- call (fun c => SetValue api c PcanHandle
                                (PCAN_MESSAGE_FILTER api) (PCAN_FILTER_OPEN api)) ;;
  (if negb (stsResult =? PCAN_ERROR_OK api)
   then
     print (PyStr "Cannot set message filter to open.") ;;
     show_status stsResult ;;
     sys_exit
   else ret tt).

Definition process_message_fd (msg : TPCANMsgFD) (timestamp : Z) : M unit :=
  print (PyStr ("Type: " ++ get_type_string (PCAN_MESSAGE_EXTENDED_value api)
                              (PCAN_MESSAGE_RTR_value api) (MSGTYPE msg))) ;;
  print (PyStr ("ID: " ++ get_id_string (PCAN_MESSAGE_EXTENDED_value api)
                            (ID msg) (MSGTYPE msg))) ;;
  print (PyStr ("Length: " ++ str_int (get_length_from_dlc (DLC msg)))) ;;
  print (PyStr ("Time: " ++ get_time_string timestamp)) ;;
  print (PyStr ("Data: " ++ get_data_string (PCAN_MESSAGE_RTR_value api)
                              (DATA msg) (DLC msg) (MSGTYPE msg))) ;;
  print (PyStr dashes).

(** One turn of the [while True] loop of [read_messages]. *)
Definition read_messages_body : M unit :=
  stsResult <- call (fun c => ReadFD api c PcanHandle) ;;
  if negb (fst (fst stsResult) =? PCAN_ERROR_QRCVEMPTY api)
  then
    if fst (fst stsResult) =? PCAN_ERROR_OK api
    then process_message_fd (snd (fst stsResult)) (snd stsResult)
    else show_status (fst (fst stsResult))
  else print (PyStr "No messages received. Waiting...").

(** The first [turns] turns of [read_messages]. The loop has no exit of
    its own: [Returned tt] stands for a loop that is still running after
    that many turns, [Raised e] for one an exception has ended. *)
Fixpoint read_messages (turns : nat) : M unit :=
  match turns with
  | O => ret tt
  | S turns' => read_messages_body ;; read_messages turns'
  end.

(** [__init__], given the state of the new [PCANBasic] object. *)
Definition init : M unit := initialize_channel.

(** The script: [reader = CANFDReader()] and [reader.read_messages()]. *)
Definition main (turns : nat) : M unit :=
  init ;; read_messages turns.

End Reader.

Arguments channel {api} w.
Arguments stdout {api} w.
Arguments Build_World {api} channel stdout.

(** A channel for tests: its state is the queue of pending results of
    [ReadFD]; reading an empty queue reports [PCAN_ERROR_QRCVEMPTY];
    [InitializeFD] and [SetValue] report [init_status]; [GetErrorText]
    answers with [error_text]. *)
Definition queue_api (init_status : Z) (error_text : Z -> Z * PyValue)
  : PCANBasic :=
  {| Channel := list (Z * TPCANMsgFD * Z);
     PCAN_USBBUS1 := 0x51;
     PCAN_ERROR_OK := 0;
     PCAN_ERROR_QRCVEMPTY := 0x20;
     PCAN_MESSAGE_FILTER := 0x04;
     PCAN_FILTER_CLOSE := 0;
     PCAN_FILTER_OPEN := 1;
     PCAN_MESSAGE_EXTENDED_value := 0x02;
     PCAN_MESSAGE_RTR_value := 0x01;
     InitializeFD := fun c _ _ => (init_status, c);
     SetValue := fun c _ _ _ => (init_status, c);
     ReadFD := fun c _ =>
       match c with
       | [] => ((0x20, {| ID := 0; MSGTYPE := 0; DLC := 0; DATA := [] |}, 0), [])
       | r :: c' => (r, c')
       end;
     GetErrorText := fun c error _ => (error_text error, c) |}.

(** An error text that is always found, and one that never is. *)
Definition text_found (error : Z) : Z * PyValue :=
  (0, PyBytes "Bus error: an error counter reached the 'heavy' limit").

Definition text_missing (error : Z) : Z * PyValue :=
  (0x40000, PyBytes "").

(** A standard data frame with DLC 2, and worlds for tests: the queue of
    the channel and what has been printed ([start]: nothing yet). *)
Definition sample_frame : TPCANMsgFD :=
  {| ID := 0x123; MSGTYPE := 0; DLC := 2; DATA := [0xAB; 0xCD] ++ repeat 0 62 |}.

Definition world_of (init_status : Z) (error_text : Z -> Z * PyValue)
  (queue : list (Z * TPCANMsgFD * Z)) (printed : list PyValue)
  : World (queue_api init_status error_text) :=
  @Build_World (queue_api init_status error_text) queue printed.

Definition start (init_status : Z) (error_text : Z -> Z * PyValue)
  (queue : list (Z * TPCANMsgFD * Z)) : World (queue_api init_status error_text) :=
  world_of init_status error_text queue [].

(** The four lines [show_status] adds for a bus error. *)
Definition suggested_actions : list PyValue :=
  [PyStr "Suggested actions:";
   PyStr "1. Check CAN bus termination.";
   PyStr "2. Ensure all devices use the same bitrate.";
   PyStr "3. Inspect cabling for loose connections."].

(** The message [get_formatted_error] makes up when the text of an error
    code cannot be retrieved. *)
Definition text_not_retrieved (error : Z) : PyValue :=
  PyStr ("An error occurred. Error-code's text ("
         ++ format_X error ++ ") couldn't be retrieved").

(** ** Reading a data line back *)

(** [s.split(sep)] for a separator of one character. *)
Fixpoint split_on (sep : ascii) (s : string) : list string :=
  match s with
  | EmptyString => [""]
  | String c s' =>
      if Ascii.eqb c sep then "" :: split_on sep s'
      else match split_on sep s' with
           | [] => [String c ""]
           | t :: ts => String c t :: ts
           end
  end.

Fixpoint string_forallb (p : ascii -> bool) (s : string) : bool :=
  match s with
  | EmptyString => true
  | String c s' => p c && string_forallb p s'
  end.

(** The characters of a rendered integer: upper-case hexadecimal digits
    and the minus sign. *)
Definition is_hex_char (c : ascii) : bool :=
  let n := Z.of_nat (nat_of_ascii c) in
  ((48 <=? n) && (n <=? 57)) || ((65 <=? n) && (n <=? 70)) || (n =? 45).

(** The characters of a data line: those of a rendered integer and the
    space between two of them. *)
Definition is_data_char (c : ascii) : bool :=
  is_hex_char c || Ascii.eqb c " ".

(** ** Reading a time back, and where a fraction lies *)

(** The text before the first point, and the text after it. *)
Fixpoint split_point (s : string) : option (string * string) :=
  match s with
  | EmptyString => None
  | String c rest =>
      if Ascii.eqb c "."
      then Some ("", rest)
      else match split_point rest with
           | Some (before, after) => Some (String c before, after)
           | None => None
           end
  end.

(** The natural number a string of decimal digits denotes; [None] for the
    empty string and for any other character. *)
Definition read_decimal (s : string) : option Z :=
  match s with
  | EmptyString => None
  | _ => option_map (fun d => Z.of_N (N.of_uint d)) (NilEmpty.uint_of_string s)
  end.

(** The number of tenths a text of the form digits, point, one digit
    denotes: "12.3" is 123 tenths. [None] for any other text. *)
Definition tenths_value (s : string) : option Z :=
  match split_point s with
  | Some (whole, String d EmptyString) =>
      match read_decimal whole, read_decimal (String d EmptyString) with
      | Some i, Some f => Some (10 * i + f)
      | _, _ => None
      end
  | _ => None
  end.

(** [located m num den l]: the location [l] tells where the fraction
    [num / den], for [0 < den], lies between the integers [m] and [m + 1]:
    on [m], below the middle, on the middle, or above it. *)
Definition located (m num den : Z) (l : location) : Prop :=
  match l with
  | loc_Exact => num = m * den
  | loc_Inexact Lt => m * den < num /\ 2 * num < (2 * m + 1) * den
  | loc_Inexact Eq => 2 * num = (2 * m + 1) * den
  | loc_Inexact Gt => (2 * m + 1) * den < 2 * num /\ num < (m + 1) * den
  end.

(** ** Sanity checks of the embedding *)

Example format_X_1ABCDE : format_X 0x1ABCDE = "1ABCDE".
Proof. reflexivity. Qed.

Example format_X_negative : format_X (-255) = "-FF".
Proof. reflexivity. Qed.

Example format_X_zero : format_X 0 = "0".
Proof. reflexivity. Qed.

Example slice_to_negative : slice_to [1; 2; 3] (-1) = [1; 2].
Proof. reflexivity. Qed.

Example slice_to_clamped : slice_to [1; 2; 3] 9 = [1; 2; 3].
Proof. reflexivity. Qed.

Example get_time_string_samples :
  map get_time_string [999999; 2345678; 250000; 350000; 0]
  = ["1.0"; "2.3"; "0.2"; "0.3"; "0.0"].
Proof. vm_compute. reflexivity. Qed.

Example tenths_value_samples :
  map tenths_value ["12.3"; "0.0"; "1.50"; "1."; ".5"; "1,5"; "nan"; "-0.0"]
  = [Some 123; Some 0; None; None; None; None; None; None].
Proof. vm_compute. reflexivity. Qed.

Example get_time_string_largest :
  get_time_string (2 ^ 64 - 1) = "18446744073709.6".
Proof. vm_compute. reflexivity. Qed.

(** ** Hexadecimal rendering *)

Lemma hex_uint_of_string_X_inv (d : Hexadecimal.uint) :
  hex_uint_of_string_X (string_of_hex_uint_X d) = Some d.
Proof.
  induction d; cbn [string_of_hex_uint_X hex_uint_of_string_X];
    try rewrite IHd; reflexivity.
Qed.

Lemma hex_value_X_digits (d : Hexadecimal.uint) :
  d <> Hexadecimal.Nil ->
  hex_value_X (string_of_hex_uint_X d) = Some (Z.of_hex_uint d).
Proof.
  intros Hd. pose proof (hex_uint_of_string_X_inv d) as Hinv.
  destruct d; try congruence;
    cbn [string_of_hex_uint_X] in *; unfold hex_value_X;
    rewrite Hinv; reflexivity.
Qed.

Lemma hex_value_X_minus (d : Hexadecimal.uint) :
  d <> Hexadecimal.Nil ->
  hex_value_X (String "-" (string_of_hex_uint_X d))
  = Some (- Z.of_hex_uint d).
Proof.
  intros Hd. pose proof (hex_uint_of_string_X_inv d) as Hinv.
  destruct d; try congruence;
    cbn [string_of_hex_uint_X] in *; unfold hex_value_X;
    rewrite Hinv; reflexivity.
Qed.

Lemma of_hex_uint_pos (p : positive) :
  Z.of_hex_uint (Pos.to_hex_uint p) = Z.pos p.
Proof.
  unfold Z.of_hex_uint. now rewrite HexadecimalPos.Unsigned.of_to.
Qed.

(** Reading a rendering back gives the integer that was rendered. *)
Lemma hex_value_X_format_X (n : Z) : hex_value_X (format_X n) = Some n.
Proof.
  destruct n as [|p|p]; unfold format_X; cbn [Z.to_hex_int].
  - reflexivity.
  - rewrite hex_value_X_digits by apply HexadecimalPos.Unsigned.to_uint_nonnil.
    now rewrite of_hex_uint_pos.
  - rewrite hex_value_X_minus by apply HexadecimalPos.Unsigned.to_uint_nonnil.
    now rewrite of_hex_uint_pos.
Qed.

Lemma to_hex_uint_unorm (p : positive) :
  Hexadecimal.unorm (Pos.to_hex_uint p) = Pos.to_hex_uint p.
Proof.
  rewrite <- HexadecimalPos.Unsigned.to_of.
  now rewrite HexadecimalPos.Unsigned.of_to.
Qed.

Lemma to_hex_uint_head (p : positive) (d : Hexadecimal.uint) :
  Pos.to_hex_uint p <> Hexadecimal.D0 d.
Proof.
  intros E. pose proof (to_hex_uint_unorm p) as Hn.
  rewrite E in Hn. unfold Hexadecimal.unorm in Hn.
  cbn [Hexadecimal.nzhead] in Hn.
  destruct (Hexadecimal.nzhead d) eqn:Hd; try discriminate.
  - injection Hn as <-.
    apply (HexadecimalPos.Unsigned.to_uint_nonzero p). exact E.
  - now apply HexadecimalFacts.nzhead_nonzero in Hd.
Qed.

Lemma no_leading_zero_digits (d : Hexadecimal.uint) :
  (forall d', d <> Hexadecimal.D0 d') ->
  no_leading_zero (string_of_hex_uint_X d) = true /\
  no_leading_zero (String "-" (string_of_hex_uint_X d)) = true.
Proof.
  intros Hd. destruct d; try (split; reflexivity).
  now destruct (Hd d).
Qed.

(** A rendering never starts with a padding zero. *)
Lemma no_leading_zero_format_X (n : Z) : no_leading_zero (format_X n) = true.
Proof.
  destruct n as [|p|p]; unfold format_X; cbn [Z.to_hex_int].
  - reflexivity.
  - apply no_leading_zero_digits, to_hex_uint_head.
  - apply no_leading_zero_digits, to_hex_uint_head.
Qed.

(** ** The DLC table *)

(** On 0..8 (and below) the first branch returns the DLC itself. *)
Lemma get_length_from_dlc_low (dlc : Z) :
  dlc <= 8 -> get_length_from_dlc dlc = dlc.
Proof.
  intros H. unfold get_length_from_dlc.
  destruct (Z.leb_spec dlc 8); [reflexivity | lia].
Qed.

(** Above 15 every comparison fails and the last branch returns 0. *)
Lemma get_length_from_dlc_high (dlc : Z) :
  15 < dlc -> get_length_from_dlc dlc = 0.
Proof.
  intros H. unfold get_length_from_dlc.
  destruct (Z.leb_spec dlc 8); [lia |].
  repeat (match goal with
          | |- context [?a =? ?b] => destruct (Z.eqb_spec a b); [lia |]
          end).
  reflexivity.
Qed.

(** C2: [get_length_from_dlc] is the identity on 0..8, maps 9, 10, 11, 12,
    13, 14, 15 to 12, 16, 20, 24, 32, 48, 64, and returns 0 for every DLC
    above 15. *)
Theorem get_length_from_dlc_table :
  (forall dlc, 0 <= dlc <= 8 -> get_length_from_dlc dlc = dlc) /\
  get_length_from_dlc 9 = 12 /\
  get_length_from_dlc 10 = 16 /\
  get_length_from_dlc 11 = 20 /\
  get_length_from_dlc 12 = 24 /\
  get_length_from_dlc 13 = 32 /\
  get_length_from_dlc 14 = 48 /\
  get_length_from_dlc 15 = 64 /\
  (forall dlc, 15 < dlc -> get_length_from_dlc dlc = 0).
Proof.
  repeat split; try reflexivity; intros dlc H.
  - apply get_length_from_dlc_low; lia.
  - apply get_length_from_dlc_high; lia.
Qed.

Lemma get_length_from_dlc_table_witness :
  get_length_from_dlc 5 = 5 /\ get_length_from_dlc 16 = 0.
Proof.
  destruct get_length_from_dlc_table as (Hid & _ & _ & _ & _ & _ & _ & _ & Hhigh).
  split; [apply Hid; lia | apply Hhigh; lia].
Defined.

(** C4, as stated, fails: -1 lies outside 0..15 and [get_length_from_dlc]
    returns -1 for it, not 0. *)
Lemma get_length_from_dlc_out_of_range_not_zero :
  ~ (forall dlc, ~ (0 <= dlc <= 15) -> get_length_from_dlc dlc = 0).
Proof.
  intros H. specialize (H (-1)).
  assert (Hout : ~ (0 <= -1 <= 15)) by lia.
  apply H in Hout. discriminate Hout.
Qed.

(** C4, amended: for every integer DLC above 15 [get_length_from_dlc]
    returns 0; it has no error outcome (it is a total function); a
    negative DLC, which the unsigned DLC field of a frame cannot hold, is
    returned unchanged. *)
Theorem get_length_from_dlc_above_15 (dlc : Z) :
  (15 < dlc -> get_length_from_dlc dlc = 0) /\
  (dlc < 0 -> get_length_from_dlc dlc = dlc).
Proof.
  split; intros H.
  - now apply get_length_from_dlc_high.
  - apply get_length_from_dlc_low; lia.
Qed.

Lemma get_length_from_dlc_above_15_witness :
  get_length_from_dlc 200 = 0 /\ get_length_from_dlc (-3) = -3.
Proof.
  split.
  - apply (proj1 (get_length_from_dlc_above_15 200)). lia.
  - apply (proj2 (get_length_from_dlc_above_15 (-3))). lia.
Defined.

(** C10: for every nonnegative DLC the length is one of 0..8, 12, 16, 20,
    24, 32, 48, 64; it is never negative and never above 64. *)
Theorem get_length_from_dlc_payload_size (dlc : Z) :
  0 <= dlc ->
  In (get_length_from_dlc dlc) payload_sizes /\
  0 <= get_length_from_dlc dlc <= 64.
Proof.
  intros H. unfold get_length_from_dlc, payload_sizes.
  destruct (Z.leb_spec dlc 8).
  - assert (Hc : dlc = 0 \/ dlc = 1 \/ dlc = 2 \/ dlc = 3 \/ dlc = 4 \/
                 dlc = 5 \/ dlc = 6 \/ dlc = 7 \/ dlc = 8) by lia.
    split; [| lia].
    repeat (destruct Hc as [-> | Hc]; [cbn; tauto |]).
    subst dlc; cbn; tauto.
  - repeat (match goal with
            | |- context [?a =? ?b] =>
                destruct (Z.eqb_spec a b); [split; [cbn; tauto | lia] |]
            end).
    split; [cbn; tauto | lia].
Qed.

Lemma get_length_from_dlc_payload_size_witness :
  In (get_length_from_dlc 13) payload_sizes /\
  0 <= get_length_from_dlc 13 <= 64.
Proof.
  apply (get_length_from_dlc_payload_size 13). lia.
Defined.

(** ** Frame type and identifier *)

Section Flags.

Variables EXT RTR : Z.

Lemma flag_test_true (msgtype mask : Z) :
  Z.land msgtype mask = mask -> (Z.land msgtype mask =? mask) = true.
Proof. intros H. now apply Z.eqb_eq. Qed.

Lemma flag_test_false (msgtype mask : Z) :
  Z.land msgtype mask <> mask -> (Z.land msgtype mask =? mask) = false.
Proof. intros H. now apply Z.eqb_neq. Qed.

(** C3: [get_type_string] returns one of four labels; it tests the
    extended flag first and the remote flag second, and returns
    "RTR Frame (Extended ID)" for extended and remote, "Extended Frame"
    for extended only, "RTR Frame (Standard ID)" for remote only and
    "Standard Frame" for neither. *)
Theorem get_type_string_labels (msgtype : Z) :
  In (get_type_string EXT RTR msgtype) type_labels /\
  (Z.land msgtype EXT = EXT -> Z.land msgtype RTR = RTR ->
   get_type_string EXT RTR msgtype = "RTR Frame (Extended ID)") /\
  (Z.land msgtype EXT = EXT -> Z.land msgtype RTR <> RTR ->
   get_type_string EXT RTR msgtype = "Extended Frame") /\
  (Z.land msgtype EXT <> EXT -> Z.land msgtype RTR = RTR ->
   get_type_string EXT RTR msgtype = "RTR Frame (Standard ID)") /\
  (Z.land msgtype EXT <> EXT -> Z.land msgtype RTR <> RTR ->
   get_type_string EXT RTR msgtype = "Standard Frame").
Proof.
  unfold get_type_string. split.
  - destruct (Z.land msgtype EXT =? EXT), (Z.land msgtype RTR =? RTR);
      cbn; tauto.
  - repeat split; intros He Hr;
      first [ rewrite (flag_test_true _ _ He) | rewrite (flag_test_false _ _ He) ];
      first [ rewrite (flag_test_true _ _ Hr) | rewrite (flag_test_false _ _ Hr) ];
      reflexivity.
Qed.

(** The identifier that is shown: the whole of it for an extended frame,
    its low eleven bits otherwise. *)
Lemma get_id_string_format_X (id msgtype : Z) :
  get_id_string EXT id msgtype
  = format_X (if is_extended EXT msgtype then id else Z.land id 0x7FF).
Proof.
  unfold get_id_string, is_extended.
  now destruct (Z.land msgtype EXT =? EXT).
Qed.

(** C5: [get_id_string] renders the full identifier when the extended
    flag is set and [id & 0x7FF] when it is clear; the rendering is in
    upper-case hexadecimal digits that denote exactly that number, and it
    has no padding zero; 0x1ABCDE on an extended frame gives "1ABCDE". *)
Theorem get_id_string_hex (id msgtype : Z) :
  let shown := if is_extended EXT msgtype then id else Z.land id 0x7FF in
  get_id_string EXT id msgtype = format_X shown /\
  hex_value_X (get_id_string EXT id msgtype) = Some shown /\
  no_leading_zero (get_id_string EXT id msgtype) = true /\
  (Z.land msgtype EXT = EXT ->
   get_id_string EXT 0x1ABCDE msgtype = "1ABCDE").
Proof.
  cbv zeta. rewrite get_id_string_format_X. repeat split.
  - apply hex_value_X_format_X.
  - apply no_leading_zero_format_X.
  - intros He. rewrite get_id_string_format_X. unfold is_extended.
    now rewrite (flag_test_true _ _ He).
Qed.

(** C6, amended: a standard frame with raw identifier 0x1ABC is shown as
    "2BC": the mask 0x7FF keeps bit 9 of 0x1ABC and drops bits 11 and
    12. *)
Theorem get_id_string_1ABC_standard (msgtype : Z) :
  Z.land msgtype EXT <> EXT ->
  get_id_string EXT 0x1ABC msgtype = "2BC".
Proof.
  intros He. rewrite get_id_string_format_X. unfold is_extended.
  now rewrite (flag_test_false _ _ He).
Qed.

End Flags.

Lemma get_type_string_labels_witness :
  get_type_string 2 1 3 = "RTR Frame (Extended ID)" /\
  get_type_string 2 1 2 = "Extended Frame" /\
  get_type_string 2 1 1 = "RTR Frame (Standard ID)" /\
  get_type_string 2 1 0 = "Standard Frame".
Proof.
  destruct (get_type_string_labels 2 1 3) as (_ & H3 & _).
  destruct (get_type_string_labels 2 1 2) as (_ & _ & H2 & _).
  destruct (get_type_string_labels 2 1 1) as (_ & _ & _ & H1 & _).
  destruct (get_type_string_labels 2 1 0) as (_ & _ & _ & _ & H0).
  split; [| split; [| split]].
  - apply H3; reflexivity.
  - apply H2; [reflexivity | discriminate].
  - apply H1; [discriminate | reflexivity].
  - apply H0; discriminate.
Defined.

Lemma get_id_string_hex_witness :
  get_id_string 2 0x1ABCDE 2 = "1ABCDE" /\
  hex_value_X (get_id_string 2 0x1FFF 0) = Some 0x7FF.
Proof.
  destruct (get_id_string_hex 2 0 2) as (_ & _ & _ & Hext).
  destruct (get_id_string_hex 2 0x1FFF 0) as (_ & Hval & _).
  split.
  - apply Hext. reflexivity.
  - exact Hval.
Defined.

(** C6, as stated, fails: no standard frame with identifier 0x1ABC is
    shown as "ABC". *)
Lemma get_id_string_1ABC_not_ABC :
  ~ (forall EXT msgtype, Z.land msgtype EXT <> EXT ->
       get_id_string EXT 0x1ABC msgtype = "ABC").
Proof.
  intros H. specialize (H 2 0).
  assert (Hstd : Z.land 0 2 <> 2) by discriminate.
  apply H in Hstd. discriminate Hstd.
Qed.

Lemma get_id_string_1ABC_standard_witness :
  Z.land 0 2 <> 2 /\ get_id_string 2 0x1ABC 0 = "2BC".
Proof.
  split; [discriminate |].
  apply (get_id_string_1ABC_standard 2 0). discriminate.
Defined.

(** ** Payload rendering *)

Section Payload.

Variable RTR : Z.

(** For a frame that is not a remote request the rendering is made of
    the slice [data[:dlc]]. *)
Lemma get_data_string_slice (data : list Z) (dlc msgtype : Z) :
  Z.land msgtype RTR <> RTR ->
  get_data_string RTR data dlc msgtype
  = join " " (map format_X (slice_to data dlc)).
Proof.
  intros Hr. unfold get_data_string.
  now rewrite (proj2 (Z.eqb_neq _ _) Hr).
Qed.

(** C7: for a frame with the remote flag set [get_data_string] returns
    "Remote Request", whatever the payload and the DLC. *)
Theorem get_data_string_remote (data : list Z) (dlc msgtype : Z) :
  Z.land msgtype RTR = RTR ->
  get_data_string RTR data dlc msgtype = "Remote Request".
Proof.
  intros Hr. unfold get_data_string.
  now rewrite (proj2 (Z.eqb_eq _ _) Hr).
Qed.

(** C8: for a frame without the remote flag, DLC 3 and a payload that
    starts with 0x0A, 0xFF, 0x01 give "A FF 1" (no padding zero, one
    space between bytes), and DLC 0 gives the empty string. *)
Theorem get_data_string_A_FF_1 (rest data : list Z) (msgtype : Z) :
  Z.land msgtype RTR <> RTR ->
  get_data_string RTR (0x0A :: 0xFF :: 0x01 :: rest) 3 msgtype = "A FF 1" /\
  get_data_string RTR data 0 msgtype = "".
Proof.
  intros Hr. rewrite !get_data_string_slice by exact Hr.
  split; reflexivity.
Qed.

(** A DLC that is not negative selects that many leading bytes. *)
Lemma slice_to_nonneg {A : Type} (data : list A) (stop : Z) :
  0 <= stop -> slice_to data stop = firstn (Z.to_nat stop) data.
Proof.
  intros H. unfold slice_to.
  destruct (Z.ltb_spec stop 0); [lia | reflexivity].
Qed.

(** C1, what the code does: for a frame without the remote flag
    [get_data_string] renders the first [dlc] bytes, the raw DLC, and not
    the first [get_length_from_dlc dlc] bytes. At DLC 9 the frame has
    twelve bytes, which would read "1 2 3 4 5 6 7 8 9 A B C", and nine
    are rendered. *)
Theorem get_data_string_dlc_9 (data : list Z) (dlc msgtype : Z) :
  Z.land msgtype RTR <> RTR ->
  0 <= dlc ->
  get_data_string RTR data dlc msgtype
  = join " " (map format_X (firstn (Z.to_nat dlc) data)) /\
  get_data_string RTR payload_1_to_12 9 msgtype = "1 2 3 4 5 6 7 8 9" /\
  join " " (map format_X
              (firstn (Z.to_nat (get_length_from_dlc 9)) payload_1_to_12))
  = "1 2 3 4 5 6 7 8 9 A B C".
Proof.
  intros Hr Hd. rewrite !get_data_string_slice by exact Hr.
  rewrite slice_to_nonneg by exact Hd.
  split; [reflexivity | split; reflexivity].
Qed.

End Payload.

Lemma get_data_string_remote_witness :
  Z.land 1 1 = 1 /\ get_data_string 1 [0x11; 0x22] 2 1 = "Remote Request".
Proof.
  split; [reflexivity |].
  apply (get_data_string_remote 1 [0x11; 0x22] 2 1). reflexivity.
Defined.

Lemma get_data_string_A_FF_1_witness :
  get_data_string 1 [0x0A; 0xFF; 0x01; 0x77] 3 0 = "A FF 1" /\
  get_data_string 1 [0x0A; 0xFF] 0 0 = "".
Proof.
  apply (get_data_string_A_FF_1 1 [0x77] [0x0A; 0xFF] 0). discriminate.
Defined.

Lemma get_data_string_dlc_9_witness :
  get_data_string 1 [0xDE; 0xAD; 0xBE; 0xEF] 2 0
  = join " " (map format_X (firstn (Z.to_nat 2) [0xDE; 0xAD; 0xBE; 0xEF])) /\
  get_data_string 1 payload_1_to_12 9 0 = "1 2 3 4 5 6 7 8 9" /\
  join " " (map format_X
              (firstn (Z.to_nat (get_length_from_dlc 9)) payload_1_to_12))
  = "1 2 3 4 5 6 7 8 9 A B C".
Proof.
  apply (get_data_string_dlc_9 1 [0xDE; 0xAD; 0xBE; 0xEF] 2 0);
    [discriminate | lia].
Defined.

(** ** Timestamp: binary64 arithmetic *)

Module Binary64.

(** The number of binary digits is the logarithm plus one. *)
Lemma digits2_pos_size (p : positive) : digits2_pos p = Pos.size p.
Proof. induction p; cbn; now rewrite ?IHp. Qed.

Lemma Zdigits2_log2 (p : positive) :
  Zdigits2 (Z.pos p) = Z.log2 (Z.pos p) + 1.
Proof.
  cbn [Zdigits2]. rewrite digits2_pos_size.
  destruct p; cbn [Z.log2 Pos.size]; lia.
Qed.

Lemma Zdigits2_nonneg (m : Z) : 0 <= Zdigits2 m.
Proof. destruct m; cbn; lia. Qed.

(** A number below [2^D] has at most [D] binary digits. *)
Lemma Zdigits2_le (m D : Z) :
  0 <= m < 2 ^ D -> 0 <= D -> Zdigits2 m <= D.
Proof.
  intros [Hm Hlt] HD. destruct m as [|p|p]; [cbn; lia | | lia].
  rewrite Zdigits2_log2.
  assert (Z.log2 (Z.pos p) < D) by (apply Z.log2_lt_pow2; lia).
  lia.
Qed.

(** A number is below two to the number of its binary digits. *)
Lemma Zdigits2_gt (p : positive) : Z.pos p < 2 ^ Zdigits2 (Z.pos p).
Proof.
  rewrite Zdigits2_log2.
  pose proof (Z.log2_spec (Z.pos p)) as H.
  replace (Z.log2 (Z.pos p) + 1) with (Z.succ (Z.log2 (Z.pos p))) by lia.
  apply H. lia.
Qed.

(** Shifting right keeps a mantissa between 0 and what it was. *)
Lemma shr_1_bounds (mrs : shr_record) :
  0 <= shr_m mrs -> 0 <= shr_m (shr_1 mrs) <= shr_m mrs.
Proof.
  destruct mrs as [m r s]. cbn [shr_m]. intros Hm.
  destruct m as [|[p|p|]|p]; cbn; lia.
Qed.

Lemma iter_shr_1_bounds (p : positive) :
  forall mrs, 0 <= shr_m mrs ->
              0 <= shr_m (iter_pos shr_1 p mrs) <= shr_m mrs.
Proof.
  induction p as [p IH|p IH|]; intros mrs Hm; cbn [iter_pos].
  - pose proof (shr_1_bounds mrs Hm) as H1.
    pose proof (IH (shr_1 mrs) (proj1 H1)) as H2.
    pose proof (IH _ (proj1 H2)) as H3. lia.
  - pose proof (IH mrs Hm) as H2.
    pose proof (IH _ (proj1 H2)) as H3. lia.
  - now apply shr_1_bounds.
Qed.

Lemma shr_m_of_loc (m : Z) (l : location) :
  shr_m (shr_record_of_loc m l) = m.
Proof. destruct l as [|[]]; reflexivity. Qed.

(** Aligning a mantissa on the format: the mantissa does not grow, and
    the exponent stays or becomes the exponent of the format. *)
Lemma shr_fexp_bounds (m e : Z) (l : location) :
  0 <= m ->
  0 <= shr_m (fst (shr_fexp prec emax m e l)) <= m /\
  e <= snd (shr_fexp prec emax m e l) /\
  (snd (shr_fexp prec emax m e l) = e \/
   snd (shr_fexp prec emax m e l) = fexp prec emax (Zdigits2 m + e)).
Proof.
  intros Hm. unfold shr_fexp, shr.
  destruct (fexp prec emax (Zdigits2 m + e) - e) as [|n|n] eqn:Hn;
    cbn [fst snd]; rewrite ?shr_m_of_loc.
  - lia.
  - pose proof (iter_shr_1_bounds n (shr_record_of_loc m l)) as H.
    rewrite shr_m_of_loc in H. lia.
  - lia.
Qed.

Lemma round_nearest_even_bounds (m : Z) (l : location) :
  m <= round_nearest_even m l <= m + 1.
Proof.
  destruct l as [|[]]; cbn [round_nearest_even];
    try destruct (Z.even m); lia.
Qed.

(** Rounding a mantissa below [2^D] at a moderate exponent: the result
    is zero or finite (it does not overflow), its exponent is at least
    the one given, and its mantissa is below [2^(D+1)]. *)
Lemma binary_round_aux_finite (s : bool) (mx ex : Z) (lx : location) (D : Z) :
  0 <= mx < 2 ^ D -> 0 <= D -> -1074 <= ex -> ex + 2 * D + 1 <= 971 ->
  binary_round_aux prec emax s mx ex lx = S754_zero s \/
  exists m e,
    binary_round_aux prec emax s mx ex lx = S754_finite s m e /\
    ex <= e <= ex + 2 * D + 1 /\ Z.pos m < 2 ^ (D + 1).
Proof.
  intros Hmx HD Hlo Hhi. unfold binary_round_aux.
  assert (Hpow : 2 ^ (D + 1) = 2 * 2 ^ D)
    by (rewrite Z.pow_add_r by lia; lia).
  pose proof (shr_fexp_bounds mx ex lx (proj1 Hmx)) as (Hm1 & He1 & Hc1).
  pose proof (Zdigits2_le mx D Hmx HD) as Hd1.
  pose proof (Zdigits2_nonneg mx) as Hd1'.
  destruct (shr_fexp prec emax mx ex lx) as [mrs1 e1].
  cbn [fst snd] in Hm1, He1, Hc1.
  pose proof (round_nearest_even_bounds (shr_m mrs1) (loc_of_shr_record mrs1))
    as Hr.
  set (m1 := round_nearest_even (shr_m mrs1) (loc_of_shr_record mrs1)) in *.
  assert (Hm1' : 0 <= m1 < 2 ^ (D + 1)) by lia.
  pose proof (shr_fexp_bounds m1 e1 loc_Exact (proj1 Hm1')) as (Hm2 & He2 & Hc2).
  pose proof (Zdigits2_le m1 (D + 1) Hm1' ltac:(lia)) as Hd2.
  pose proof (Zdigits2_nonneg m1) as Hd2'.
  destruct (shr_fexp prec emax m1 e1 loc_Exact) as [mrs2 e2].
  cbn [fst snd] in Hm2, He2, Hc2.
  unfold fexp, emin, prec, emax in Hc1, Hc2.
  assert (He : ex <= e2 <= ex + 2 * D + 1) by lia.
  destruct (shr_m mrs2) as [|m|m] eqn:Hm.
  - now left.
  - right. exists m, e2.
    replace (e2 <=? emax - prec) with true
      by (symmetry; apply Z.leb_le; unfold emax, prec; lia).
    repeat split; lia.
  - lia.
Qed.

Lemma iter_xO_pow2 (m d : positive) :
  Z.pos (Pos.iter xO m d) = Z.pos m * 2 ^ Z.pos d.
Proof.
  rewrite (Pos.iter_swap_gen _ _ Z.pos xO (Z.mul 2)) by reflexivity.
  change (Pos.iter (Z.mul 2) (Z.pos m) d) with (Z.shiftl (Z.pos m) (Z.pos d)).
  apply Z.shiftl_mul_pow2. lia.
Qed.

(** Aligning to a smaller exponent multiplies the mantissa by the power
    of two in between. *)
Lemma shl_align_spec (mx : positive) (ex ex' : Z) :
  snd (shl_align mx ex ex') = Z.min ex ex' /\
  Z.pos (fst (shl_align mx ex ex'))
  = Z.pos mx * 2 ^ (ex - Z.min ex ex').
Proof.
  unfold shl_align. destruct (ex' - ex) as [|d|d] eqn:Hd; cbn [fst snd].
  - replace (Z.min ex ex') with ex by lia.
    rewrite Z.sub_diag, Z.pow_0_r. lia.
  - replace (Z.min ex ex') with ex by lia.
    rewrite Z.sub_diag, Z.pow_0_r. lia.
  - replace (Z.min ex ex') with ex' by lia.
    split; [reflexivity |].
    rewrite iter_xO_pow2. replace (ex - ex') with (Z.pos d) by lia.
    reflexivity.
Qed.

Lemma mul_pow2_lt (m k a b : Z) :
  0 <= m < 2 ^ a -> 0 <= k <= b -> 0 <= a -> m * 2 ^ k < 2 ^ (a + b).
Proof.
  intros Hm Hk Ha.
  assert (H1 : 0 < 2 ^ k) by (apply Z.pow_pos_nonneg; lia).
  assert (H2 : 2 ^ k <= 2 ^ b) by (apply Z.pow_le_mono_r; lia).
  rewrite Z.pow_add_r by lia. nia.
Qed.

(** Converting a 64-bit tick count to [float] gives zero or a positive
    finite number. *)
Lemma float_of_int_finite (t : Z) :
  0 <= t < 2 ^ 64 ->
  float_of_int t = S754_zero false \/
  exists m e,
    float_of_int t = S754_finite false m e /\
    -52 <= e <= 233 /\ Z.pos m < 2 ^ 117.
Proof.
  intros Ht. destruct t as [|p|p]; [now left | | lia].
  unfold float_of_int, binary_normalize, binary_round.
  pose proof (Zdigits2_le (Z.pos p) 64 Ht ltac:(lia)) as Hd.
  cbn [Zdigits2] in Hd.
  pose proof (shl_align_spec p 0 (fexp prec emax (Z.pos (digits2_pos p) + 0)))
    as [He Hm].
  destruct (shl_align p 0 (fexp prec emax (Z.pos (digits2_pos p) + 0)))
    as [mz ez].
  cbn [fst snd] in He, Hm. rewrite <- He in Hm.
  unfold fexp, emin, prec, emax in He.
  assert (Hez : -52 <= ez <= 0) by lia.
  assert (Hmz : 0 <= Z.pos mz < 2 ^ 116).
  { split; [lia |]. rewrite Hm.
    change 116 with (64 + 52). apply mul_pow2_lt; lia. }
  destruct (binary_round_aux_finite false (Z.pos mz) ez loc_Exact 116)
    as [Hz | (m & e & Hf & Hb & Hlt)]; try lia.
  - now left.
  - right. exists m, e. repeat split; try assumption; lia.
Qed.

(** The float literal [1000000.0]. *)
Lemma float_of_int_1000000 :
  float_of_int 1000000 = S754_finite false 8589934592000000 (-33).
Proof. vm_compute. reflexivity. Qed.

(** Dividing a positive finite float of moderate size by [1000000.0]
    gives zero or a positive finite float. *)
Lemma float_truediv_1000000_finite (m1 : positive) (e1 : Z) :
  -52 <= e1 <= 233 -> Z.pos m1 < 2 ^ 117 ->
  float_truediv (S754_finite false m1 e1) (float_of_int 1000000)
  = S754_zero false \/
  exists m e,
    float_truediv (S754_finite false m1 e1) (float_of_int 1000000)
    = S754_finite false m e.
Proof.
  intros He1 Hm1. rewrite float_of_int_1000000.
  unfold float_truediv, SFdiv, SFdiv_core_binary. cbn [xorb].
  set (m2 := 8589934592000000%positive).
  assert (Hd2 : Zdigits2 (Z.pos m2) = 53) by (vm_compute; reflexivity).
  rewrite Hd2.
  assert (Hd1 : 1 <= Zdigits2 (Z.pos m1) <= 117).
  { split; [cbn [Zdigits2]; lia |]. apply Zdigits2_le; lia. }
  set (d1 := Zdigits2 (Z.pos m1)) in *.
  set (e' := Z.min (fexp prec emax (d1 + e1 - (53 + -33))) (e1 - -33)).
  assert (He' : -124 <= e' <= 266 /\ e1 - -33 - e' <= 106)
    by (unfold e', fexp, emin, prec, emax; lia).
  set (sh := e1 - -33 - e') in *.
  set (m' := match sh with
             | 0 => Z.pos m1
             | Z.pos _ => Z.shiftl (Z.pos m1) sh
             | Z.neg _ => 0
             end).
  assert (Hm' : 0 <= m' < 2 ^ 223).
  { unfold m'. destruct sh as [|n|n] eqn:Hsh.
    - split; [lia |].
      apply Z.lt_le_trans with (1 := Hm1). apply Z.pow_le_mono_r; lia.
    - rewrite Z.shiftl_mul_pow2 by lia. split.
      + apply Z.mul_nonneg_nonneg; [lia |]. apply Z.pow_nonneg; lia.
      + change 223 with (117 + 106). apply mul_pow2_lt; lia.
    - split; [lia |]. apply Z.pow_pos_nonneg; lia. }
  pose proof (Z_div_mod m' (Z.pos m2) ltac:(lia)) as Hdiv.
  destruct (Z.div_eucl m' (Z.pos m2)) as [q r].
  assert (Hq : 0 <= q < 2 ^ 223) by nia.
  destruct (binary_round_aux_finite false q e' (new_location (Z.pos m2) r) 223)
    as [Hz | (m & e & Hf & _)]; try lia.
  - now left.
  - right. now exists m, e.
Qed.

(** The seconds of a 64-bit tick count are zero or a positive finite
    float: the division neither overflows nor is undefined. *)
Lemma dSeconds_finite (t : Z) :
  0 <= t < 2 ^ 64 ->
  dSeconds t = S754_zero false \/
  exists m e, dSeconds t = S754_finite false m e.
Proof.
  intros Ht. unfold dSeconds, c_ulonglong_value.
  rewrite Z.mod_small by exact Ht.
  destruct (float_of_int_finite t Ht) as [Hz | (m1 & e1 & Hf & He & Hm)].
  - left. rewrite Hz, float_of_int_1000000. reflexivity.
  - rewrite Hf. now apply float_truediv_1000000_finite.
Qed.

(** *** Rounding to nearest is within half a unit *)

Lemma loc_of_shr_record_of_loc (m : Z) (l : location) :
  loc_of_shr_record (shr_record_of_loc m l) = l.
Proof. destruct l as [|[]]; reflexivity. Qed.

Lemma shr_1_div2 (mrs : shr_record) :
  0 <= shr_m mrs -> shr_m (shr_1 mrs) = shr_m mrs / 2.
Proof.
  destruct mrs as [m r s]. cbn [shr_m]. intros Hm.
  rewrite <- Z.div2_div.
  destruct m as [|[p|p|]|p]; cbn [shr_1 shr_m Z.div2]; try reflexivity.
  exfalso. apply Hm. reflexivity.
Qed.

(** One shift to the right keeps track of where the fraction lies. *)
Lemma shr_1_located (mrs : shr_record) (num den : Z) :
  0 <= shr_m mrs -> 0 < den ->
  located (shr_m mrs) num den (loc_of_shr_record mrs) ->
  located (shr_m (shr_1 mrs)) num (2 * den) (loc_of_shr_record (shr_1 mrs)).
Proof.
  destruct mrs as [m r s]. cbn [shr_m]. intros Hm Hden.
  destruct m as [|[p|p|]|p]; [| | | | exfalso; apply Hm; reflexivity].
  all: destruct r, s; cbn [shr_1 shr_m loc_of_shr_record orb located];
    try rewrite (Pos2Z.inj_xI p); try rewrite (Pos2Z.inj_xO p); lia.
Qed.

Lemma pow2_xI (p : positive) :
  2 ^ Z.pos p~1 = 2 ^ Z.pos p * (2 ^ Z.pos p * 2).
Proof.
  replace (Z.pos p~1) with (Z.pos p + (Z.pos p + 1)) by lia.
  rewrite !Z.pow_add_r by lia. now rewrite Z.pow_1_r.
Qed.

Lemma pow2_xO (p : positive) : 2 ^ Z.pos p~0 = 2 ^ Z.pos p * 2 ^ Z.pos p.
Proof.
  replace (Z.pos p~0) with (Z.pos p + Z.pos p) by lia.
  now rewrite Z.pow_add_r by lia.
Qed.

(** Shifting to the right [p] times divides the mantissa by [2^p] and
    keeps track of where the fraction lies. *)
Lemma iter_shr_1_spec (p : positive) :
  forall (mrs : shr_record) (num den : Z),
    0 <= shr_m mrs -> 0 < den ->
    located (shr_m mrs) num den (loc_of_shr_record mrs) ->
    shr_m (iter_pos shr_1 p mrs) = shr_m mrs / 2 ^ Z.pos p /\
    located (shr_m (iter_pos shr_1 p mrs)) num (2 ^ Z.pos p * den)
            (loc_of_shr_record (iter_pos shr_1 p mrs)).
Proof.
  induction p as [p IH|p IH|]; intros mrs num den Hm Hden Hloc;
    cbn [iter_pos].
  - assert (Hp : 0 < 2 ^ Z.pos p) by (apply Z.pow_pos_nonneg; lia).
    pose proof (shr_1_bounds mrs Hm) as [H1 _].
    pose proof (shr_1_located mrs num den Hm Hden Hloc) as L1.
    destruct (IH (shr_1 mrs) num (2 * den) H1 ltac:(lia) L1) as [E2 L2].
    pose proof (iter_shr_1_bounds p (shr_1 mrs) H1) as [H2 _].
    destruct (IH _ num (2 ^ Z.pos p * (2 * den)) H2 ltac:(nia) L2) as [E3 L3].
    rewrite pow2_xI. split.
    + rewrite E3, E2, shr_1_div2 by exact Hm.
      rewrite !Z.div_div by lia. f_equal. lia.
    + replace (2 ^ Z.pos p * (2 ^ Z.pos p * 2) * den)
        with (2 ^ Z.pos p * (2 ^ Z.pos p * (2 * den))) by lia.
      exact L3.
  - assert (Hp : 0 < 2 ^ Z.pos p) by (apply Z.pow_pos_nonneg; lia).
    destruct (IH mrs num den Hm Hden Hloc) as [E2 L2].
    pose proof (iter_shr_1_bounds p mrs Hm) as [H2 _].
    destruct (IH _ num (2 ^ Z.pos p * den) H2 ltac:(nia) L2) as [E3 L3].
    rewrite pow2_xO. split.
    + rewrite E3, E2. now rewrite Z.div_div by lia.
    + replace (2 ^ Z.pos p * 2 ^ Z.pos p * den)
        with (2 ^ Z.pos p * (2 ^ Z.pos p * den)) by lia.
      exact L3.
  - split.
    + now apply shr_1_div2.
    + now apply shr_1_located.
Qed.

Lemma shr_spec (m : Z) (l : location) (e n num den : Z) :
  0 <= m -> 0 < den -> 0 <= n -> located m num den l ->
  snd (shr (shr_record_of_loc m l) e n) = e + n /\
  shr_m (fst (shr (shr_record_of_loc m l) e n)) = m / 2 ^ n /\
  located (shr_m (fst (shr (shr_record_of_loc m l) e n))) num (2 ^ n * den)
          (loc_of_shr_record (fst (shr (shr_record_of_loc m l) e n))).
Proof.
  intros Hm Hden Hn Hloc. unfold shr.
  destruct n as [|p|p]; cbn [fst snd]; [| | lia].
  - rewrite shr_m_of_loc, loc_of_shr_record_of_loc, Z.pow_0_r, Z.div_1_r.
    replace (1 * den) with den by lia. repeat split; [lia | exact Hloc].
  - split; [reflexivity |].
    pose proof (iter_shr_1_spec p (shr_record_of_loc m l) num den) as H.
    rewrite shr_m_of_loc, loc_of_shr_record_of_loc in H.
    now apply H.
Qed.

(** Rounding to nearest lands within half a unit of the fraction. *)
Lemma round_nearest_even_located (m num den : Z) (l : location) :
  0 < den -> located m num den l ->
  2 * Z.abs (round_nearest_even m l * den - num) <= den.
Proof.
  intros Hden. destruct l as [|[]]; cbn [located round_nearest_even];
    try destruct (Z.even m); lia.
Qed.

Lemma Zdigits2_eq (m d : Z) :
  1 <= d -> 2 ^ (d - 1) <= m < 2 ^ d -> Zdigits2 m = d.
Proof.
  intros Hd [Hlo Hhi].
  assert (0 < 2 ^ (d - 1)) by (apply Z.pow_pos_nonneg; lia).
  destruct m as [|p|p]; try lia.
  rewrite Zdigits2_log2.
  rewrite (Z.log2_unique (Z.pos p) (d - 1)); try lia.
  replace (Z.succ (d - 1)) with d by lia. lia.
Qed.

(** Rounding a mantissa of [d >= 53] binary digits, with the fraction it
    stands for, in the range of the normal numbers: the result is finite,
    its mantissa has exactly 53 digits, and its value is within half a
    unit in the last place of the fraction. *)
Lemma binary_round_aux_correct (s : bool) (mx ex : Z) (lx : location)
      (num den d : Z) :
  53 <= d -> 2 ^ (d - 1) <= mx < 2 ^ d ->
  0 < den -> located mx num den lx ->
  -1074 <= ex + d - 53 -> ex + d - 52 <= 971 ->
  exists M k,
    binary_round_aux prec emax s mx ex lx = S754_finite s M (ex + k) /\
    d - 53 <= k <= d - 52 /\
    2 ^ 52 <= Z.pos M < 2 ^ 53 /\
    2 * Z.abs (Z.pos M * 2 ^ k * den - num) <= 2 ^ k * den.
Proof.
  intros Hd Hmx Hden Hloc Hlo Hhi.
  unfold binary_round_aux, shr_fexp.
  rewrite (Zdigits2_eq mx d) by lia.
  set (n := d - 53).
  assert (Hn : fexp prec emax (d + ex) - ex = n)
    by (unfold fexp, emin, prec, emax, n; lia).
  rewrite Hn.
  assert (Hn0 : 0 <= n) by (unfold n; lia).
  assert (Hpn : 0 < 2 ^ n) by (apply Z.pow_pos_nonneg; lia).
  assert (Hmx0 : 0 <= mx).
  { assert (0 < 2 ^ (d - 1)) by (apply Z.pow_pos_nonneg; lia). lia. }
  destruct (shr_spec mx lx ex n num den Hmx0 Hden Hn0 Hloc) as (He1 & Hm1 & Hl1).
  destruct (shr (shr_record_of_loc mx lx) ex n) as [mrs1 e1].
  cbn [fst snd] in He1, Hm1, Hl1. subst e1.
  assert (Hb1 : 2 ^ 52 <= shr_m mrs1 < 2 ^ 53).
  { rewrite Hm1.
    assert (E1 : 2 ^ (d - 1) = 2 ^ 52 * 2 ^ n).
    { rewrite <- Z.pow_add_r by lia. f_equal. unfold n. lia. }
    assert (E2 : 2 ^ d = 2 ^ 53 * 2 ^ n).
    { rewrite <- Z.pow_add_r by lia. f_equal. unfold n. lia. }
    rewrite E1, E2 in Hmx. split.
    - apply Z.div_le_lower_bound; lia.
    - apply Z.div_lt_upper_bound; lia. }
  pose proof (round_nearest_even_bounds (shr_m mrs1) (loc_of_shr_record mrs1))
    as Hr.
  assert (Hden' : 0 < 2 ^ n * den) by nia.
  pose proof (round_nearest_even_located _ _ _ _ Hden' Hl1) as Herr.
  set (M0 := round_nearest_even (shr_m mrs1) (loc_of_shr_record mrs1)) in *.
  destruct (Z.eq_dec M0 (2 ^ 53)) as [E | E].
  - assert (E' : M0 = 9007199254740992) by (rewrite E; reflexivity).
    rewrite E'.
    replace (Zdigits2 9007199254740992) with 54 by (vm_compute; reflexivity).
    assert (Hn2 : fexp prec emax (54 + (ex + n)) - (ex + n) = 1)
      by (unfold fexp, emin, prec, emax, n; lia).
    rewrite Hn2.
    cbn [shr fst snd shr_record_of_loc shr_m iter_pos shr_1].
    replace (ex + n + 1 <=? emax - prec) with true
      by (symmetry; apply Z.leb_le; unfold emax, prec, n; lia).
    exists (4503599627370496%positive), (n + 1).
    replace (ex + n + 1) with (ex + (n + 1)) by lia.
    split; [reflexivity |]. split; [unfold n; lia |].
    split; [split; [apply Z.leb_le | apply Z.ltb_lt]; vm_compute; reflexivity |].
    rewrite E' in Herr. rewrite Z.pow_add_r, Z.pow_1_r by lia.
    replace (Z.pos 4503599627370496 * (2 ^ n * 2) * den)
      with (9007199254740992 * (2 ^ n * den)) by lia.
    replace (2 ^ n * 2 * den) with (2 * (2 ^ n * den)) by lia.
    lia.
  - assert (Hb0 : 2 ^ 52 <= M0 < 2 ^ 53) by lia.
    rewrite (Zdigits2_eq M0 53) by (change (53 - 1) with 52; lia).
    assert (Hn2 : fexp prec emax (53 + (ex + n)) - (ex + n) = 0)
      by (unfold fexp, emin, prec, emax, n; lia).
    rewrite Hn2. cbn [shr fst snd shr_record_of_loc shr_m].
    destruct M0 as [|M|M] eqn:EM; try lia.
    exists M, n.
    replace (ex + n <=? emax - prec) with true
      by (symmetry; apply Z.leb_le; unfold emax, prec, n; lia).
    split; [reflexivity |]. split; [unfold n; lia |].
    split; [exact Hb0 |].
    replace (Z.pos M * 2 ^ n * den) with (Z.pos M * (2 ^ n * den)) by lia.
    exact Herr.
Qed.

(** A bound on an error keeps when both sides are scaled. *)
Lemma scale_error (c a b u : Z) :
  0 < u -> c * Z.abs a <= b -> c * Z.abs (a * u) <= b * u.
Proof.
  intros Hu H. rewrite Z.abs_mul, (Z.abs_eq u) by lia. nia.
Qed.

(** *** The conversion of the tick count *)

(** Converting a tick count [0 < t < 2^64] gives a normal float
    [M1 * 2^E1] whose distance to [t] is at most [2^-53] of itself; both
    sides are scaled by [2^52] here, to stay with integers. *)
Lemma float_of_int_correct (t : Z) :
  0 < t < 2 ^ 64 ->
  exists M1 E1,
    float_of_int t = S754_finite false M1 E1 /\
    -52 <= E1 <= 12 /\
    2 ^ 52 <= Z.pos M1 < 2 ^ 53 /\
    2 ^ 53 * Z.abs (Z.pos M1 * 2 ^ (E1 + 52) - t * 2 ^ 52)
    <= Z.pos M1 * 2 ^ (E1 + 52).
Proof.
  intros Ht. destruct t as [|p|p]; try lia.
  unfold float_of_int, binary_normalize, binary_round.
  pose proof (Zdigits2_le (Z.pos p) 64 ltac:(lia) ltac:(lia)) as Hd64.
  pose proof (Zdigits2_gt p) as Hgt.
  assert (Hge : 2 ^ (Zdigits2 (Z.pos p) - 1) <= Z.pos p).
  { rewrite Zdigits2_log2.
    replace (Z.log2 (Z.pos p) + 1 - 1) with (Z.log2 (Z.pos p)) by lia.
    apply Z.log2_spec. lia. }
  assert (Hd1 : 1 <= Zdigits2 (Z.pos p)) by (cbn [Zdigits2]; lia).
  cbn [Zdigits2] in Hd64, Hgt, Hge, Hd1.
  set (d := Z.pos (digits2_pos p)) in *.
  pose proof (shl_align_spec p 0 (fexp prec emax (d + 0))) as [He Hm].
  destruct (shl_align p 0 (fexp prec emax (d + 0))) as [mz ez].
  cbn [fst snd] in He, Hm. rewrite <- He in Hm.
  unfold fexp, emin, prec, emax in He.
  assert (Hez : -52 <= ez <= 0) by lia.
  assert (Hu : 0 < 2 ^ (ez + 52)) by (apply Z.pow_pos_nonneg; lia).
  assert (Hscale : Z.pos mz * 2 ^ (ez + 52) = Z.pos p * 2 ^ 52).
  { rewrite Hm, <- Z.mul_assoc, <- Z.pow_add_r by lia.
    do 2 f_equal. lia. }
  set (d' := Z.max d 53).
  assert (Hmz : 2 ^ (d' - 1) <= Z.pos mz < 2 ^ d').
  { destruct (Z.le_gt_cases d 53) as [Hc | Hc].
    - replace d' with 53 by (unfold d'; lia).
      replace ez with (d - 53) in Hm by lia.
      replace (0 - (d - 53)) with (53 - d) in Hm by lia.
      assert (E1 : 2 ^ (53 - 1) = 2 ^ (d - 1) * 2 ^ (53 - d)).
      { rewrite <- Z.pow_add_r by lia. f_equal. lia. }
      assert (E2 : 2 ^ 53 = 2 ^ d * 2 ^ (53 - d)).
      { rewrite <- Z.pow_add_r by lia. f_equal. lia. }
      assert (0 < 2 ^ (53 - d)) by (apply Z.pow_pos_nonneg; lia).
      rewrite E1, E2, Hm. nia.
    - replace d' with d by (unfold d'; lia).
      replace ez with 0 in Hm by lia.
      rewrite Z.sub_diag, Z.pow_0_r, Z.mul_1_r in Hm. rewrite Hm. lia. }
  assert (Hloc : located (Z.pos mz) (Z.pos mz) 1 loc_Exact)
    by (cbn [located]; lia).
  destruct (binary_round_aux_correct false (Z.pos mz) ez loc_Exact
              (Z.pos mz) 1 d' ltac:(unfold d'; lia) Hmz ltac:(lia) Hloc
              ltac:(unfold d'; lia) ltac:(unfold d'; lia))
    as (M & k & Hf & Hk & HM & Herr).
  assert (Hk0 : 0 <= k) by (unfold d' in Hk; lia).
  assert (Hpk : 0 < 2 ^ k) by (apply Z.pow_pos_nonneg; lia).
  exists M, (ez + k). split; [exact Hf |].
  split; [unfold d' in Hk; lia |]. split; [exact HM |].
  replace (ez + k + 52) with (k + (ez + 52)) by lia.
  rewrite Z.pow_add_r by lia. rewrite <- Hscale.
  replace (Z.pos M * (2 ^ k * 2 ^ (ez + 52)) - Z.pos mz * 2 ^ (ez + 52))
    with ((Z.pos M * 2 ^ k - Z.pos mz) * 2 ^ (ez + 52)) by lia.
  replace (Z.pos M * (2 ^ k * 2 ^ (ez + 52)))
    with (Z.pos M * 2 ^ k * 2 ^ (ez + 52)) by lia.
  apply scale_error; [exact Hu |].
  replace (Z.pos M * 2 ^ k * 1 - Z.pos mz)
    with (Z.pos M * 2 ^ k - Z.pos mz) in Herr by lia.
  assert (Hw : 2 ^ 52 * 2 ^ k <= Z.pos M * 2 ^ k) by nia.
  set (W := Z.pos M * 2 ^ k) in *. lia.
Qed.

(** *** The division by a million *)

(** Where the quotient of a division lies, from its remainder. *)
Lemma new_location_even_located (m' m2 q r : Z) :
  0 < m2 -> m' = m2 * q + r -> 0 <= r < m2 ->
  located q m' m2 (new_location_even m2 r).
Proof.
  intros Hm2 -> Hr. unfold new_location_even.
  destruct (Z.eqb_spec r 0) as [-> | Hr0]; cbn [located]; [lia |].
  destruct (Z.compare_spec (2 * r) m2); lia.
Qed.

(** Dividing a normal float [M1 * 2^E1] of the size of a tick count by
    [1000000.0] gives a normal float [M * 2^E] whose distance to the exact
    quotient is at most [2^-53] of itself. With both floats scaled to
    integers ([2^72] for the quotient, [2^52] for the dividend) and the
    divisor moved to the left, the exact relation is
    [10^6 * (M * 2^E) = M1 * 2^E1]. *)
Lemma float_truediv_correct (M1 : positive) (E1 : Z) :
  2 ^ 52 <= Z.pos M1 < 2 ^ 53 -> -52 <= E1 <= 12 ->
  exists M E,
    float_truediv (S754_finite false M1 E1) (float_of_int 1000000)
    = S754_finite false M E /\
    -72 <= E <= -6 /\
    2 ^ 52 <= Z.pos M < 2 ^ 53 /\
    2 ^ 53 * Z.abs (1000000 * (Z.pos M * 2 ^ (E + 72))
                    - 2 ^ 20 * (Z.pos M1 * 2 ^ (E1 + 52)))
    <= 1000000 * (Z.pos M * 2 ^ (E + 72)).
Proof.
  intros HM1 HE1. rewrite float_of_int_1000000.
  unfold float_truediv, SFdiv, SFdiv_core_binary. cbn [xorb].
  set (m2 := 8589934592000000%positive).
  assert (Hd2 : Zdigits2 (Z.pos m2) = 53) by (vm_compute; reflexivity).
  rewrite Hd2, (Zdigits2_eq (Z.pos M1) 53) by (change (53 - 1) with 52; lia).
  assert (He' : Z.min (fexp prec emax (53 + E1 - (53 + -33))) (E1 - -33)
                = E1 - 20)
    by (unfold fexp, emin, prec, emax; lia).
  rewrite He'.
  replace (E1 - -33 - (E1 - 20)) with 53 by lia. cbv beta iota zeta.
  rewrite Z.shiftl_mul_pow2 by lia.
  assert (Hm2 : Z.pos m2 = 1000000 * 2 ^ 33) by (vm_compute; reflexivity).
  assert (E53 : 2 ^ 53 = 9007199254740992) by reflexivity.
  assert (E52 : 2 ^ 52 = 4503599627370496) by reflexivity.
  pose proof (Z_div_mod (Z.pos M1 * 2 ^ 53) (Z.pos m2) ltac:(lia)) as Hdiv.
  destruct (Z.div_eucl (Z.pos M1 * 2 ^ 53) (Z.pos m2)) as [q r].
  destruct Hdiv as [Hq Hr].
  assert (Hloc : located q (Z.pos M1 * 2 ^ 53) (Z.pos m2)
                         (new_location (Z.pos m2) r)).
  { unfold new_location.
    replace (Z.even (Z.pos m2)) with true by (vm_compute; reflexivity).
    apply new_location_even_located; [lia | exact Hq | exact Hr]. }
  assert (Hqb : 2 ^ 52 <= q < 2 ^ 54).
  { assert (E54 : 2 ^ 54 = 18014398509481984) by reflexivity.
    rewrite E54, E52. rewrite E53, E52 in *.
    assert (Hm2' : Z.pos m2 = 8589934592000000) by reflexivity.
    rewrite Hm2' in *. lia. }
  set (dq := if q <? 2 ^ 53 then 53 else 54).
  assert (Hdq : 53 <= dq <= 54 /\ 2 ^ (dq - 1) <= q < 2 ^ dq).
  { unfold dq. destruct (Z.ltb_spec q (2 ^ 53)).
    - change (53 - 1) with 52. lia.
    - change (54 - 1) with 53. lia. }
  destruct Hdq as [Hdq Hqd].
  destruct (binary_round_aux_correct false q (E1 - 20)
              (new_location (Z.pos m2) r)
              (Z.pos M1 * 2 ^ 53) (Z.pos m2) dq
              ltac:(lia) Hqd ltac:(lia) Hloc ltac:(lia) ltac:(lia))
    as (M & k & Hf & Hk & HM & Herr).
  assert (Hk0 : 0 <= k <= 2) by lia.
  assert (Hpk : 0 < 2 ^ k) by (apply Z.pow_pos_nonneg; lia).
  assert (Hu : 0 < 2 ^ (E1 + 52)) by (apply Z.pow_pos_nonneg; lia).
  exists M, (E1 - 20 + k). split; [exact Hf |].
  split; [lia |]. split; [exact HM |].
  replace (E1 - 20 + k + 72) with (k + (E1 + 52)) by lia.
  rewrite Z.pow_add_r by lia.
  replace (1000000 * (Z.pos M * (2 ^ k * 2 ^ (E1 + 52)))
           - 2 ^ 20 * (Z.pos M1 * 2 ^ (E1 + 52)))
    with ((1000000 * (Z.pos M * 2 ^ k) - 2 ^ 20 * Z.pos M1) * 2 ^ (E1 + 52))
    by lia.
  replace (1000000 * (Z.pos M * (2 ^ k * 2 ^ (E1 + 52))))
    with (1000000 * (Z.pos M * 2 ^ k) * 2 ^ (E1 + 52)) by lia.
  apply scale_error; [exact Hu |].
  assert (Hw : 2 ^ 52 * 2 ^ k <= Z.pos M * 2 ^ k) by nia.
  set (W := Z.pos M * 2 ^ k) in *.
  rewrite Hm2 in Herr.
  assert (E33 : 2 ^ 33 = 8589934592) by reflexivity.
  assert (E20 : 2 ^ 20 = 1048576) by reflexivity.
  rewrite E53, E33 in Herr. rewrite E52 in Hw. rewrite E53, E20.
  set (a := 2 ^ k) in *. lia.
Qed.

End Binary64.

(** ** Timestamp: rendering with one fractional digit *)

(** The rounded quotient is one of the two integers around the exact
    quotient, and it is at most half a unit away from it. *)
Lemma round_half_even_div_nearest (a b : Z) :
  0 < b ->
  a / b <= round_half_even_div a b <= a / b + 1 /\
  2 * Z.abs (b * round_half_even_div a b - a) <= b.
Proof.
  intros Hb. unfold round_half_even_div.
  pose proof (Z_div_mod a b ltac:(lia)) as Hdiv.
  unfold Z.div. destruct (Z.div_eucl a b) as [q r].
  destruct Hdiv as [-> Hr].
  destruct (Z.compare_spec (2 * r) b) as [Hc | Hc | Hc].
  - destruct (Z.even q); split; lia.
  - split; lia.
  - split; lia.
Qed.

(** A tie goes to the even neighbour. *)
Lemma round_half_even_div_tie (a b : Z) :
  0 < b -> 2 * (a mod b) = b -> Z.even (round_half_even_div a b) = true.
Proof.
  intros Hb. unfold round_half_even_div, Z.modulo.
  destruct (Z.div_eucl a b) as [q r]. intros Hr.
  rewrite Hr, Z.compare_refl.
  destruct (Z.even q) eqn:Hq; [exact Hq |].
  rewrite Z.even_add, Hq. reflexivity.
Qed.

Lemma pow2_pos (k : Z) : 0 <= k -> 0 < 2 ^ k.
Proof. intros H. apply Z.pow_pos_nonneg; lia. Qed.

Lemma tenths_nonneg (m : positive) (e : Z) : 0 <= tenths m e.
Proof.
  unfold tenths. destruct (Z.leb_spec 0 e) as [He | He].
  - pose proof (pow2_pos e He). nia.
  - pose proof (pow2_pos (- e) ltac:(lia)) as Hb.
    pose proof (round_half_even_div_nearest (10 * Z.pos m) _ Hb) as [Hq _].
    assert (0 <= 10 * Z.pos m / 2 ^ (- e)) by (apply Z.div_pos; lia).
    lia.
Qed.

(** The number of tenths that is rendered is the one nearest to the exact
    value [m * 2^e] of the float. *)
Lemma tenths_nearest (m : positive) (e : Z) :
  (0 <= e -> tenths m e = 10 * (Z.pos m * 2 ^ e)) /\
  (e < 0 ->
   2 * Z.abs (2 ^ (- e) * tenths m e - 10 * Z.pos m) <= 2 ^ (- e)).
Proof.
  unfold tenths. split; intros He.
  - destruct (Z.leb_spec 0 e); lia.
  - destruct (Z.leb_spec 0 e); [lia |].
    apply round_half_even_div_nearest, pow2_pos. lia.
Qed.

(** *** Decimal digits *)

Lemma all_digits_string_of_uint (d : Decimal.uint) :
  all_digits (NilEmpty.string_of_uint d) = true.
Proof. induction d; cbn; auto. Qed.

Lemma string_of_uint_nonempty (d : Decimal.uint) :
  d <> Decimal.Nil -> NilEmpty.string_of_uint d <> "".
Proof. destruct d; cbn; congruence. Qed.

Lemma decimal_digits (n : Z) :
  decimal n <> "" /\ all_digits (decimal n) = true.
Proof.
  unfold decimal. split; [| apply all_digits_string_of_uint].
  apply string_of_uint_nonempty.
  destruct (Z.to_N n) as [|p]; cbn [N.to_uint].
  - discriminate.
  - apply DecimalPos.Unsigned.to_uint_nonnil.
Qed.

Lemma decimal_one_digit (r : Z) :
  0 <= r < 10 -> exists d, decimal r = String d "" /\ is_digit d = true.
Proof.
  intros Hr.
  assert (Hc : r = 0 \/ r = 1 \/ r = 2 \/ r = 3 \/ r = 4 \/
               r = 5 \/ r = 6 \/ r = 7 \/ r = 8 \/ r = 9) by lia.
  repeat (destruct Hc as [-> | Hc]; [eexists; split; reflexivity |]).
  subst r. eexists; split; reflexivity.
Qed.

(** A number of tenths is rendered as digits, a point and one digit. *)
Lemma fixed_1_shape (q : Z) :
  decimal (q / 10) <> "" /\ all_digits (decimal (q / 10)) = true /\
  exists d, decimal (q mod 10) = String d "" /\ is_digit d = true.
Proof.
  destruct (decimal_digits (q / 10)) as [Hne Hall].
  repeat split; try assumption.
  apply decimal_one_digit, Z.mod_pos_bound. lia.
Qed.

(** *** From the tick count to the tenths *)

(** The tenths of a float with an exponent in -72..-1, scaled by [2^72]:
    at most half a tenth away from ten times the float. *)
Lemma tenths_scaled (M : positive) (E : Z) :
  -72 <= E < 0 ->
  2 * Z.abs (2 ^ 72 * tenths M E - 10 * (Z.pos M * 2 ^ (E + 72))) <= 2 ^ 72.
Proof.
  intros HE. destruct (tenths_nearest M E) as [_ H].
  specialize (H ltac:(lia)).
  assert (Hv : 0 < 2 ^ (E + 72)) by (apply pow2_pos; lia).
  assert (Hav : 2 ^ (- E) * 2 ^ (E + 72) = 2 ^ 72).
  { rewrite <- Z.pow_add_r by lia. f_equal. lia. }
  apply (Binary64.scale_error 2 _ _ _ Hv) in H.
  rewrite Hav in H.
  replace ((2 ^ (- E) * tenths M E - 10 * Z.pos M) * 2 ^ (E + 72))
    with (2 ^ (- E) * 2 ^ (E + 72) * tenths M E
          - 10 * (Z.pos M * 2 ^ (E + 72))) in H by lia.
  now rewrite Hav in H.
Qed.

(** The float [dSeconds] of a tick count [0 < t < 2^64] is normal, with an
    exponent in -72..-6; scaled by [2^72], a million times its value
    differs from [t] by at most [t / 2^51]; and its tenths, times 100000,
    differ from [t] by at most [50000 + t / 2^51] microseconds. *)
Lemma dSeconds_accuracy (t : Z) :
  0 < t < 2 ^ 64 ->
  exists M E,
    dSeconds t = S754_finite false M E /\
    -72 <= E < 0 /\
    2 ^ 51 * Z.abs (1000000 * (Z.pos M * 2 ^ (E + 72)) - 2 ^ 72 * t)
    <= 2 ^ 72 * t /\
    2 ^ 51 * Z.abs (100000 * tenths M E - t) <= 2 ^ 51 * 50000 + t.
Proof.
  intros Ht. unfold dSeconds, c_ulonglong_value.
  rewrite Z.mod_small by lia.
  destruct (Binary64.float_of_int_correct t Ht)
    as (M1 & E1 & Hf1 & HE1 & HM1 & HA).
  destruct (Binary64.float_truediv_correct M1 E1 HM1 HE1)
    as (M & E & Hf & HE & HM & HB).
  pose proof (tenths_scaled M E ltac:(lia)) as HC.
  rewrite Hf1, Hf. exists M, E. split; [reflexivity |]. split; [lia |].
  assert (HXs : 0 < Z.pos M * 2 ^ (E + 72))
    by (apply Z.mul_pos_pos; [lia | apply pow2_pos; lia]).
  assert (HYs : 0 < Z.pos M1 * 2 ^ (E1 + 52))
    by (apply Z.mul_pos_pos; [lia | apply pow2_pos; lia]).
  set (Xs := Z.pos M * 2 ^ (E + 72)) in *.
  set (Ys := Z.pos M1 * 2 ^ (E1 + 52)) in *.
  set (q := tenths M E) in *.
  change (2 ^ 72) with 4722366482869645213696 in *.
  change (2 ^ 53) with 9007199254740992 in *.
  change (2 ^ 52) with 4503599627370496 in *.
  change (2 ^ 51) with 2251799813685248 in *.
  change (2 ^ 20) with 1048576 in *.
  clear - HA HB HC HXs HYs Ht. split; lia.
Qed.

(** *** Reading the rendering back *)

Lemma is_digit_not_point (c : ascii) :
  is_digit c = true -> Ascii.eqb c "." = false.
Proof.
  intros H. destruct (Ascii.eqb_spec c ".") as [-> | _]; [discriminate H |].
  reflexivity.
Qed.

Lemma split_point_app (a b : string) :
  all_digits a = true -> split_point (a ++ String "." b) = Some (a, b).
Proof.
  induction a as [|c a IH]; cbn; [reflexivity |].
  intros H. apply andb_prop in H as [Hc Ha].
  now rewrite (is_digit_not_point c Hc), (IH Ha).
Qed.

Lemma read_decimal_decimal (n : Z) : 0 <= n -> read_decimal (decimal n) = Some n.
Proof.
  intros Hn. destruct (decimal_digits n) as [Hne _].
  unfold read_decimal. destruct (decimal n) eqn:E; [congruence |].
  rewrite <- E. unfold decimal.
  rewrite NilEmpty.usu. cbn [option_map].
  now rewrite DecimalN.Unsigned.of_to, Z2N.id.
Qed.

(** A number of tenths, written with one digit after the point and read
    back, is the same number. *)
Lemma tenths_value_fixed_1 (q : Z) : 0 <= q -> tenths_value (fixed_1 q) = Some q.
Proof.
  intros Hq. unfold fixed_1, tenths_value.
  destruct (decimal_digits (q / 10)) as [_ Hall].
  change ("." ++ decimal (q mod 10)) with (String "." (decimal (q mod 10))).
  rewrite split_point_app by exact Hall.
  pose proof (Z.mod_pos_bound q 10 ltac:(lia)) as Hr.
  destruct (decimal_one_digit (q mod 10) Hr) as (d & Ed & _).
  pose proof (read_decimal_decimal (q mod 10) ltac:(lia)) as Hf.
  rewrite Ed in Hf |- *.
  rewrite read_decimal_decimal by (apply Z.div_pos; lia).
  rewrite Hf. f_equal. pose proof (Z.div_mod q 10 ltac:(lia)). lia.
Qed.

(** C9: for a 64-bit tick count [t], [get_time_string] returns digits, a
    point and exactly one fractional digit. Read back as a number [q] of
    tenths of a second, the text is at most [50000 + t / 2^51]
    microseconds away from [t], so at most half a tenth of a second for a
    count below [2^51]. It is obtained from the binary64 quotient of [t]
    by [1000000.0], a finite float within [t / 2^51] microseconds of [t],
    by rounding ten times that float to the nearest integer, ties to
    even. 1500000 ticks give "1.5". *)
Theorem get_time_string_one_decimal (t : Z) :
  0 <= t < 2 ^ 64 ->
  dSeconds t = float_truediv (float_of_int t) (float_of_int 1000000) /\
  (exists q : Z,
      0 <= q /\
      (dSeconds t = S754_zero false /\ q = 0 \/
       exists m e, dSeconds t = S754_finite false m e /\ q = tenths m e) /\
      get_time_string t = decimal (q / 10) ++ "." ++ decimal (q mod 10) /\
      decimal (q / 10) <> "" /\ all_digits (decimal (q / 10)) = true /\
      (exists d, decimal (q mod 10) = String d "" /\ is_digit d = true) /\
      tenths_value (get_time_string t) = Some q /\
      2 ^ 51 * Z.abs (100000 * q - t) <= 2 ^ 51 * 50000 + t /\
      (t < 2 ^ 51 -> Z.abs (100000 * q - t) <= 50000) /\
      (t = 0 \/
       exists m e,
         dSeconds t = S754_finite false m e /\ -72 <= e < 0 /\
         2 ^ 51 * Z.abs (1000000 * (Z.pos m * 2 ^ (e + 72)) - 2 ^ 72 * t)
         <= 2 ^ 72 * t /\
         2 * Z.abs (2 ^ (- e) * q - 10 * Z.pos m) <= 2 ^ (- e) /\
         (2 * ((10 * Z.pos m) mod 2 ^ (- e)) = 2 ^ (- e) ->
          Z.even q = true))) /\
  get_time_string 1500000 = "1.5".
Proof.
  intros Ht. split; [| split].
  - unfold dSeconds, c_ulonglong_value. now rewrite Z.mod_small.
  - destruct (Z.eq_dec t 0) as [-> | Hne].
    + exists 0. unfold get_time_string.
      replace (dSeconds 0) with (S754_zero false) by (vm_compute; reflexivity).
      split; [lia |]. split; [now left |]. split; [reflexivity |].
      destruct (fixed_1_shape 0) as (H1 & H2 & H3).
      split; [exact H1 |]. split; [exact H2 |]. split; [exact H3 |].
      split; [reflexivity |]. split; [vm_compute; discriminate |].
      split; [intros _; vm_compute; discriminate | now left].
    + destruct (dSeconds_accuracy t ltac:(lia)) as (m & e & Hf & He & Hx & Hq).
      exists (tenths m e). unfold get_time_string. rewrite Hf.
      cbn [format_1f].
      split; [apply tenths_nonneg |].
      split; [right; now exists m, e |]. split; [reflexivity |].
      destruct (fixed_1_shape (tenths m e)) as (H1 & H2 & H3).
      split; [exact H1 |]. split; [exact H2 |]. split; [exact H3 |].
      split; [apply tenths_value_fixed_1, tenths_nonneg |].
      split; [exact Hq |].
      split.
      { intros Hsmall. change (2 ^ 51) with 2251799813685248 in *. lia. }
      right. exists m, e. split; [reflexivity |]. split; [exact He |].
      split; [exact Hx |].
      split; [apply tenths_nearest; lia |].
      intros Htie. unfold tenths.
      destruct (Z.leb_spec 0 e); [lia |].
      apply round_half_even_div_tie; [apply pow2_pos; lia | exact Htie].
  - vm_compute. reflexivity.
Qed.

Lemma get_time_string_one_decimal_witness :
  0 <= 999999 < 2 ^ 64 /\
  (exists q : Z,
      tenths_value (get_time_string 999999) = Some q /\
      Z.abs (100000 * q - 999999) <= 50000) /\
  get_time_string 1500000 = "1.5".
Proof.
  assert (H : 0 <= 999999 < 2 ^ 64) by (split; [discriminate | reflexivity]).
  split; [exact H |].
  destruct (get_time_string_one_decimal 999999 H)
    as (_ & (q & _ & _ & _ & _ & _ & _ & Hread & _ & Hnear & _) & Hex).
  split; [| exact Hex].
  exists q. split; [exact Hread |]. apply Hnear. reflexivity.
Defined.

(** ** Further properties of the decoder *)

(** X1: on the DLC values 0..15 the length grows strictly with the DLC, so
    no two DLC values share a length, and it is never below the DLC. *)
Theorem get_length_from_dlc_increasing (a b : Z) :
  0 <= a -> a < b -> b <= 15 ->
  get_length_from_dlc a < get_length_from_dlc b /\
  a <= get_length_from_dlc a /\ b <= get_length_from_dlc b.
Proof.
  intros Ha Hab Hb. unfold get_length_from_dlc.
  repeat (match goal with
          | |- context [?x <=? ?y] => destruct (Z.leb_spec x y)
          | |- context [?x =? ?y] => destruct (Z.eqb_spec x y)
          end; try lia).
Qed.

Lemma get_length_from_dlc_increasing_witness :
  get_length_from_dlc 8 < get_length_from_dlc 9 /\
  8 <= get_length_from_dlc 8 /\ 9 <= get_length_from_dlc 9.
Proof.
  apply (get_length_from_dlc_increasing 8 9); lia.
Defined.

Section MoreFlags.

Variables EXT RTR : Z.

(** Setting bits that lie outside a mask does not change the test of the
    mask. *)
Lemma land_lor_outside (msgtype extra mask : Z) :
  Z.land extra mask = 0 ->
  Z.land (Z.lor msgtype extra) mask = Z.land msgtype mask.
Proof.
  intros H. now rewrite Z.land_lor_distr_l, H, Z.lor_0_r.
Qed.

(** X2: flag bits outside the extended and the remote mask (FD, bit rate
    switch, error state indicator) change nothing: the type, the
    identifier and the data are rendered as without them. *)
Theorem other_flags_ignored (msgtype extra id dlc : Z) (data : list Z) :
  Z.land extra EXT = 0 -> Z.land extra RTR = 0 ->
  get_type_string EXT RTR (Z.lor msgtype extra)
  = get_type_string EXT RTR msgtype /\
  get_id_string EXT id (Z.lor msgtype extra) = get_id_string EXT id msgtype /\
  get_data_string RTR data dlc (Z.lor msgtype extra)
  = get_data_string RTR data dlc msgtype.
Proof.
  intros He Hr. unfold get_type_string, get_id_string, get_data_string.
  rewrite (land_lor_outside _ _ _ He), (land_lor_outside _ _ _ Hr).
  repeat split.
Qed.

(** X3: the type label tells the two flags: two message types with the
    same label agree on the extended test and on the remote test. *)
Theorem get_type_string_injective (m m' : Z) :
  get_type_string EXT RTR m = get_type_string EXT RTR m' ->
  (Z.land m EXT = EXT <-> Z.land m' EXT = EXT) /\
  (Z.land m RTR = RTR <-> Z.land m' RTR = RTR).
Proof.
  unfold get_type_string.
  destruct (Z.eqb_spec (Z.land m EXT) EXT), (Z.eqb_spec (Z.land m RTR) RTR),
    (Z.eqb_spec (Z.land m' EXT) EXT), (Z.eqb_spec (Z.land m' RTR) RTR);
    intros H; try discriminate H; tauto.
Qed.

(** X4: on extended frames the identifier text tells the identifier:
    different identifiers are never shown alike. *)
Theorem get_id_string_extended_injective (id id' msgtype : Z) :
  Z.land msgtype EXT = EXT ->
  get_id_string EXT id msgtype = get_id_string EXT id' msgtype ->
  id = id'.
Proof.
  intros He H. rewrite !get_id_string_format_X in H. unfold is_extended in H.
  rewrite (flag_test_true _ _ He) in H.
  apply (f_equal hex_value_X) in H.
  rewrite !hex_value_X_format_X in H. congruence.
Qed.

End MoreFlags.

Lemma other_flags_ignored_witness :
  get_type_string 2 1 (Z.lor 3 0x1C) = get_type_string 2 1 3 /\
  get_id_string 2 0x123 (Z.lor 3 0x1C) = get_id_string 2 0x123 3 /\
  get_data_string 1 [1; 2] 2 (Z.lor 3 0x1C) = get_data_string 1 [1; 2] 2 3.
Proof.
  apply (other_flags_ignored 2 1 3 0x1C 0x123 2 [1; 2]); reflexivity.
Defined.

Lemma get_type_string_injective_witness :
  (Z.land 6 2 = 2 <-> Z.land 2 2 = 2) /\ (Z.land 6 1 = 1 <-> Z.land 2 1 = 1).
Proof.
  apply (get_type_string_injective 2 1 6 2). reflexivity.
Defined.

Lemma get_id_string_extended_injective_witness :
  Z.land 2 2 = 2 /\
  get_id_string 2 0x1ABCDE 2 = get_id_string 2 (0x1ABCD0 + 0xE) 2 /\
  0x1ABCDE = 0x1ABCD0 + 0xE.
Proof.
  split; [reflexivity |]. split; [reflexivity |].
  apply (get_id_string_extended_injective 2 0x1ABCDE (0x1ABCD0 + 0xE) 2);
    reflexivity.
Defined.

(** Every number of eleven bits is rendered in at most three digits. *)
Lemma format_X_11_bits (v : Z) :
  0 <= v < 2048 -> (String.length (format_X v) <= 3)%nat.
Proof.
  intros Hv.
  assert (Hall : forallb (fun n => Nat.leb (String.length (format_X (Z.of_nat n))) 3)
                         (seq 0 2048) = true) by (vm_compute; reflexivity).
  rewrite forallb_forall in Hall.
  specialize (Hall (Z.to_nat v)).
  rewrite Z2Nat.id in Hall by lia.
  apply Nat.leb_le, Hall, in_seq. lia.
Qed.

(** X5: on a standard frame the identifier text depends on the low eleven
    bits of the identifier only: it denotes [id mod 2048], a number of
    0..0x7FF, and has at most three characters, whatever the higher bits
    of the raw identifier are. *)
Theorem get_id_string_standard_range (EXT id msgtype : Z) :
  Z.land msgtype EXT <> EXT ->
  0 <= id mod 2048 <= 0x7FF /\
  get_id_string EXT id msgtype = format_X (id mod 2048) /\
  hex_value_X (get_id_string EXT id msgtype) = Some (id mod 2048) /\
  (String.length (get_id_string EXT id msgtype) <= 3)%nat.
Proof.
  intros He.
  assert (Hm : 0 <= id mod 2048 < 2048) by (apply Z.mod_pos_bound; lia).
  assert (Hid : get_id_string EXT id msgtype = format_X (id mod 2048)).
  { rewrite get_id_string_format_X. unfold is_extended.
    rewrite (flag_test_false _ _ He).
    change 0x7FF with (Z.ones 11). rewrite Z.land_ones by lia.
    reflexivity. }
  rewrite Hid. split; [lia |]. split; [reflexivity |].
  split; [apply hex_value_X_format_X | now apply format_X_11_bits].
Qed.

Lemma get_id_string_standard_range_witness :
  0 <= 0x1ABC mod 2048 <= 0x7FF /\
  get_id_string 2 0x1ABC 0 = format_X (0x1ABC mod 2048) /\
  hex_value_X (get_id_string 2 0x1ABC 0) = Some (0x1ABC mod 2048) /\
  (String.length (get_id_string 2 0x1ABC 0) <= 3)%nat.
Proof.
  apply (get_id_string_standard_range 2 0x1ABC 0). discriminate.
Defined.

(** ** Further properties of the data line *)

Lemma string_forallb_app (p : ascii -> bool) (a b : string) :
  string_forallb p (a ++ b) = string_forallb p a && string_forallb p b.
Proof.
  induction a as [|c a IH]; cbn; [reflexivity |].
  now rewrite IH, andb_assoc.
Qed.

Lemma string_forallb_impl (p q : ascii -> bool) (s : string) :
  (forall c, p c = true -> q c = true) ->
  string_forallb p s = true -> string_forallb q s = true.
Proof.
  intros Hpq. induction s as [|c s IH]; cbn; [reflexivity |].
  intros H. apply andb_prop in H as [Hc Hs].
  now rewrite (Hpq c Hc), IH.
Qed.

Lemma string_of_hex_uint_X_chars (d : Hexadecimal.uint) :
  string_forallb is_hex_char (string_of_hex_uint_X d) = true.
Proof. induction d; cbn; auto. Qed.

(** A rendered integer holds hexadecimal digits and a minus sign only. *)
Lemma format_X_chars (n : Z) : string_forallb is_hex_char (format_X n) = true.
Proof.
  unfold format_X. destruct (Z.to_hex_int n); cbn [string_forallb];
    rewrite string_of_hex_uint_X_chars; reflexivity.
Qed.

Lemma is_hex_char_not_space (c : ascii) :
  is_hex_char c = true -> negb (Ascii.eqb c " ") = true.
Proof.
  intros H. destruct (Ascii.eqb_spec c " ") as [-> | _]; [discriminate H |].
  reflexivity.
Qed.

Lemma join_chars (parts : list string) :
  Forall (fun p => string_forallb is_hex_char p = true) parts ->
  string_forallb is_data_char (join " " parts) = true.
Proof.
  assert (Hd : forall p, string_forallb is_hex_char p = true ->
                         string_forallb is_data_char p = true).
  { intros p. apply string_forallb_impl. intros c Hc.
    unfold is_data_char. now rewrite Hc. }
  induction parts as [|p rest IH]; intros H; [reflexivity |].
  inversion H as [|? ? Hp Hrest]; subst.
  destruct rest as [|q rest]; [now apply Hd |].
  change (join " " (p :: q :: rest)) with (p ++ " " ++ join " " (q :: rest)).
  rewrite !string_forallb_app, (Hd p Hp), (IH Hrest). reflexivity.
Qed.

Lemma Forall_format_X (P : string -> Prop) (l : list Z) :
  (forall n, P (format_X n)) -> Forall P (map format_X l).
Proof.
  intros H. induction l; cbn; constructor; auto.
Qed.

(** X6: the text "Remote Request" marks remote frames and nothing else: a
    frame without the remote flag is rendered with hexadecimal digits,
    minus signs and spaces only, so its data never reads "Remote
    Request". *)
Theorem get_data_string_remote_iff (RTR : Z) (data : list Z) (dlc msgtype : Z) :
  (get_data_string RTR data dlc msgtype = "Remote Request"
   <-> Z.land msgtype RTR = RTR) /\
  (Z.land msgtype RTR <> RTR ->
   string_forallb is_data_char (get_data_string RTR data dlc msgtype) = true).
Proof.
  assert (Hchars : Z.land msgtype RTR <> RTR ->
            string_forallb is_data_char (get_data_string RTR data dlc msgtype)
            = true).
  { intros Hr. rewrite get_data_string_slice by exact Hr.
    apply join_chars, Forall_format_X, format_X_chars. }
  split; [| exact Hchars]. split.
  - intros H. destruct (Z.eq_dec (Z.land msgtype RTR) RTR) as [E | E];
      [exact E |].
    apply Hchars in E. rewrite H in E. discriminate E.
  - intros Hr. unfold get_data_string.
    now rewrite (proj2 (Z.eqb_eq _ _) Hr).
Qed.

Lemma get_data_string_remote_iff_witness :
  get_data_string 1 [0xAB; 0x0C] 2 1 = "Remote Request" /\
  string_forallb is_data_char (get_data_string 1 [0xAB; 0x0C] 2 0) = true.
Proof.
  destruct (get_data_string_remote_iff 1 [0xAB; 0x0C] 2 1) as [[_ Hrem] _].
  destruct (get_data_string_remote_iff 1 [0xAB; 0x0C] 2 0) as [_ Hdat].
  split; [apply Hrem; reflexivity | apply Hdat; discriminate].
Defined.

(** X7: a DLC that is not below the size of the buffer renders the whole
    buffer and nothing more: the slice is clamped, so no byte outside the
    buffer is read and nothing fails. *)
Theorem get_data_string_clamped (RTR : Z) (data : list Z) (dlc msgtype : Z) :
  Z.land msgtype RTR <> RTR ->
  Z.of_nat (List.length data) <= dlc ->
  get_data_string RTR data dlc msgtype = join " " (map format_X data).
Proof.
  intros Hr Hd. rewrite get_data_string_slice by exact Hr.
  rewrite slice_to_nonneg by lia.
  rewrite firstn_all2 by lia. reflexivity.
Qed.

Lemma get_data_string_clamped_witness :
  get_data_string 1 [0x11; 0x22; 0x33] 200 0 = "11 22 33".
Proof.
  apply (get_data_string_clamped 1 [0x11; 0x22; 0x33] 200 0);
    [discriminate | cbn; lia].
Defined.

(** *** Splitting a data line *)

Lemma split_on_no_sep (sep : ascii) (p : string) :
  string_forallb (fun c => negb (Ascii.eqb c sep)) p = true ->
  split_on sep p = [p].
Proof.
  induction p as [|c p IH]; cbn; [reflexivity |].
  intros H. apply andb_prop in H as [Hc Hp].
  apply negb_true_iff in Hc. rewrite Hc, (IH Hp). reflexivity.
Qed.

Lemma split_on_app (sep : ascii) (p s : string) :
  string_forallb (fun c => negb (Ascii.eqb c sep)) p = true ->
  split_on sep (p ++ String sep s) = p :: split_on sep s.
Proof.
  induction p as [|c p IH]; cbn.
  - intros _. now rewrite Ascii.eqb_refl.
  - intros H. apply andb_prop in H as [Hc Hp].
    apply negb_true_iff in Hc. rewrite Hc, (IH Hp). reflexivity.
Qed.

(** Splitting what was joined gives the parts back, when there is a part
    and no part holds the separator. *)
Lemma split_on_join (sep : ascii) (parts : list string) :
  parts <> [] ->
  Forall (fun p => string_forallb (fun c => negb (Ascii.eqb c sep)) p = true)
         parts ->
  split_on sep (join (String sep "") parts) = parts.
Proof.
  induction parts as [|p rest IH]; intros Hne H; [congruence |].
  inversion H as [|? ? Hp Hrest]; subst.
  destruct rest as [|q rest]; [now apply split_on_no_sep |].
  change (join (String sep "") (p :: q :: rest))
    with (p ++ String sep (join (String sep "") (q :: rest))).
  rewrite split_on_app by exact Hp.
  rewrite IH by (congruence || exact Hrest). reflexivity.
Qed.

(** The pieces of a data line are the renderings of the bytes. *)
Lemma split_get_data_string (RTR : Z) (data : list Z) (dlc msgtype : Z) :
  Z.land msgtype RTR <> RTR ->
  0 < dlc -> data <> [] ->
  split_on " " (get_data_string RTR data dlc msgtype)
  = map format_X (firstn (Z.to_nat dlc) data).
Proof.
  intros Hr Hd Hdata. rewrite get_data_string_slice by exact Hr.
  rewrite slice_to_nonneg by lia.
  apply split_on_join.
  - destruct data as [|b data]; [congruence |].
    destruct (Z.to_nat dlc) eqn:E; [lia | discriminate].
  - apply Forall_format_X. intros n.
    apply (string_forallb_impl is_hex_char); [| apply format_X_chars].
    apply is_hex_char_not_space.
Qed.

(** X8: the data line of a frame without the remote flag can be read
    back: split at the spaces and read as upper-case hexadecimal, it gives
    the first [dlc] bytes of the buffer (all of them when the buffer is
    shorter), for a positive DLC and a buffer that is not empty. *)
Theorem get_data_string_round_trip (RTR : Z) (data : list Z) (dlc msgtype : Z) :
  Z.land msgtype RTR <> RTR ->
  0 < dlc -> data <> [] ->
  map hex_value_X (split_on " " (get_data_string RTR data dlc msgtype))
  = map Some (firstn (Z.to_nat dlc) data).
Proof.
  intros Hr Hd Hdata. rewrite split_get_data_string by assumption.
  rewrite map_map. apply map_ext. intros n. apply hex_value_X_format_X.
Qed.

(** X16: for a data frame of classic length (DLC 1..8) whose buffer holds
    at least that many bytes, the data line has exactly as many bytes as
    the length that [process_message_fd] prints above it. *)
Theorem data_line_matches_length (RTR : Z) (data : list Z) (dlc msgtype : Z) :
  Z.land msgtype RTR <> RTR ->
  1 <= dlc <= 8 -> dlc <= Z.of_nat (List.length data) ->
  Z.of_nat (List.length (split_on " " (get_data_string RTR data dlc msgtype)))
  = get_length_from_dlc dlc.
Proof.
  intros Hr Hd Hlen.
  rewrite split_get_data_string; [| exact Hr | lia |].
  - rewrite length_map, firstn_length_le by lia.
    rewrite get_length_from_dlc_low by lia. lia.
  - intros ->. cbn in Hlen. lia.
Qed.

Lemma get_data_string_round_trip_witness :
  map hex_value_X (split_on " " (get_data_string 1 [0x0A; 0xFF; 0x01; 0x77] 3 0))
  = map Some (firstn (Z.to_nat 3) [0x0A; 0xFF; 0x01; 0x77]).
Proof.
  apply (get_data_string_round_trip 1 [0x0A; 0xFF; 0x01; 0x77] 3 0);
    [discriminate | lia | discriminate].
Defined.

Lemma data_line_matches_length_witness :
  Z.of_nat (List.length
              (split_on " " (get_data_string 1 (DATA sample_frame) 2 0)))
  = get_length_from_dlc 2.
Proof.
  apply (data_line_matches_length 1 (DATA sample_frame) 2 0);
    [discriminate | lia | cbn; lia].
Defined.

(** ** Searching bytes *)

Lemma prefix_app (n h : string) :
  String.prefix n h = true <-> exists post, h = n ++ post.
Proof.
  revert h. induction n as [|c n IH]; intros h.
  - split; [intros _; now exists h | intros _; now destruct h].
  - destruct h as [|d h]; cbn [String.prefix].
    + split; [discriminate | intros [post E]; discriminate E].
    + destruct (Ascii.ascii_dec c d) as [-> | Hcd].
      * rewrite IH. split; intros [post E]; exists post; cbn in *; congruence.
      * split; [discriminate | intros [post E]; cbn in E; congruence].
Qed.

(** [contains] finds the needle exactly when it occurs somewhere. *)
Lemma contains_spec (n h : string) :
  contains n h = true <-> exists pre post, h = pre ++ n ++ post.
Proof.
  induction h as [|c h IH]; cbn [contains].
  - rewrite orb_false_r, prefix_app. split.
    + intros [post E]. now exists "", post.
    + intros (pre & post & E). destruct pre; [now exists post | discriminate E].
  - rewrite orb_true_iff, prefix_app, IH. split.
    + intros [[post E] | (pre & post & E)].
      * now exists "", post.
      * exists (String c pre), post. cbn. now rewrite E.
    + intros (pre & post & E). destruct pre as [|d pre].
      * left. now exists post.
      * right. exists pre, post. cbn in E. congruence.
Qed.

(** ** The reader *)

Section ReaderProperties.

Variable api : PCANBasic.

Lemma world_eta (w : World api) :
  {| channel := channel w; stdout := stdout w |} = w.
Proof. now destruct w. Qed.

(** What [get_formatted_error] returns, by the answer of [GetErrorText]. *)
Lemma get_formatted_error_run (error : Z) (w : World api) s v c' :
  GetErrorText api (channel w) error 0x09 = ((s, v), c') ->
  get_formatted_error api error w
  = (Returned (if s =? PCAN_ERROR_OK api then v else text_not_retrieved error),
     {| channel := c'; stdout := stdout w |}).
Proof.
  intros H. unfold get_formatted_error, bind, call, ret. rewrite H.
  cbn [fst snd]. now destruct (s =? PCAN_ERROR_OK api).
Qed.

(** What [show_status] does, by the text it got. *)
Lemma show_status_run (status : Z) (w : World api) s v c' :
  GetErrorText api (channel w) status 0x09 = ((s, v), c') ->
  show_status api status w
  = match (if s =? PCAN_ERROR_OK api then v else text_not_retrieved status) with
    | PyBytes b =>
        (Returned tt,
         {| channel := c';
            stdout := stdout w
                      ++ [PyStr equals; PyBytes b]
                      ++ (if contains "Bus error" b
                          then suggested_actions else [])
                      ++ [PyStr equals] |})
    | PyStr t =>
        (Raised TypeError,
         {| channel := c'; stdout := stdout w ++ [PyStr equals; PyStr t] |})
    end.
Proof.
  intros H. unfold show_status, bind at 1 2. cbn [print].
  rewrite (get_formatted_error_run status _ s v c') by exact H.
  destruct (if s =? PCAN_ERROR_OK api then v else text_not_retrieved status)
    as [t | b].
  - unfold bind, print, bytes_in, raise.
    cbn [channel stdout]. now rewrite <- app_assoc.
  - unfold bind, print, bytes_in, ret, suggested_actions.
    destruct (contains "Bus error" b); cbn [channel stdout];
      rewrite <- ?app_assoc; reflexivity.
Qed.

(** X9: when the text of a status cannot be retrieved, [show_status]
    prints the opening rule and a message with the status in hexadecimal,
    and then ends with [TypeError], because it searches that [str] for
    [bytes]; the closing rule is never printed. *)
Theorem show_status_text_missing (status : Z) (w : World api) s v c' :
  GetErrorText api (channel w) status 0x09 = ((s, v), c') ->
  s <> PCAN_ERROR_OK api ->
  show_status api status w
  = (Raised TypeError,
     {| channel := c';
        stdout := stdout w ++ [PyStr equals; text_not_retrieved status] |}).
Proof.
  intros H Hs. rewrite (show_status_run _ _ _ _ _ H).
  now rewrite (proj2 (Z.eqb_neq _ _) Hs).
Qed.

(** X10: when the text is retrieved as [bytes], [show_status] returns; it
    prints the rule, the text, the four suggested actions exactly when the
    text contains "Bus error", and the rule again. *)
Theorem show_status_text_found (status : Z) (w : World api) b c' :
  GetErrorText api (channel w) status 0x09
  = ((PCAN_ERROR_OK api, PyBytes b), c') ->
  show_status api status w
  = (Returned tt,
     {| channel := c';
        stdout := stdout w
                  ++ [PyStr equals; PyBytes b]
                  ++ (if contains "Bus error" b then suggested_actions else [])
                  ++ [PyStr equals] |}).
Proof.
  intros H. rewrite (show_status_run _ _ _ _ _ H).
  now rewrite Z.eqb_refl.
Qed.

(** [show_status] returns or ends with [TypeError]; it only adds to what
    was printed, and it leaves the channel as [GetErrorText] left it. *)
Lemma show_status_cases (status : Z) (w : World api) :
  exists o out,
    show_status api status w
    = (o, {| channel := snd (GetErrorText api (channel w) status 0x09);
             stdout := stdout w ++ PyStr equals :: out |}) /\
    (o = Returned tt \/ o = Raised TypeError).
Proof.
  destruct (GetErrorText api (channel w) status 0x09) as [[s v] c'] eqn:H.
  cbn [snd]. rewrite (show_status_run _ _ _ _ _ H).
  destruct (if s =? PCAN_ERROR_OK api then v else text_not_retrieved status).
  - eexists _, _. split; [reflexivity | now right].
  - eexists _, _. split; [reflexivity | now left].
Qed.

(** [process_message_fd] prints its six lines and returns; it makes no
    call on the channel. *)
Lemma process_message_fd_run (msg : TPCANMsgFD) (timestamp : Z) (w : World api) :
  process_message_fd api msg timestamp w
  = (Returned tt,
     {| channel := channel w;
        stdout := stdout w ++
          [PyStr ("Type: " ++ get_type_string (PCAN_MESSAGE_EXTENDED_value api)
                                (PCAN_MESSAGE_RTR_value api) (MSGTYPE msg));
           PyStr ("ID: " ++ get_id_string (PCAN_MESSAGE_EXTENDED_value api)
                              (ID msg) (MSGTYPE msg));
           PyStr ("Length: " ++ str_int (get_length_from_dlc (DLC msg)));
           PyStr ("Time: " ++ get_time_string timestamp);
           PyStr ("Data: " ++ get_data_string (PCAN_MESSAGE_RTR_value api)
                                (DATA msg) (DLC msg) (MSGTYPE msg));
           PyStr dashes] |}).
Proof.
  unfold process_message_fd, bind, print. cbn [channel stdout].
  now rewrite <- !app_assoc.
Qed.

(** The three lines of a failed step of the initialization: the message,
    the status, [sys.exit()]. They never return. *)
Lemma abort_run (line : string) (status : Z) (w : World api) :
  exists e out,
    bind api (print api (PyStr line))
      (fun _ => bind api (show_status api status)
                  (fun _ => @sys_exit api unit)) w
    = (Raised e,
       {| channel := snd (GetErrorText api (channel w) status 0x09);
          stdout := stdout w ++ PyStr line :: PyStr equals :: out |}) /\
    (e = SystemExit \/ e = TypeError).
Proof.
  unfold bind at 1. cbn [print].
  destruct (show_status_cases status
              {| channel := channel w; stdout := stdout w ++ [PyStr line] |})
    as (o & out & Hrun & Ho).
  cbn [channel stdout] in Hrun. rewrite <- app_assoc in Hrun.
  unfold bind. rewrite Hrun.
  destruct Ho as [-> | ->].
  - exists SystemExit, out. split; [reflexivity | now left].
  - exists TypeError, out. split; [reflexivity | now right].
Qed.

(** The two ways [initialize_channel] can go. *)
Lemma initialize_channel_run (w : World api) s1 c1 s2 c2 s3 c3 :
  InitializeFD api (channel w) (PcanHandle api) BitrateFD = (s1, c1) ->
  SetValue api c1 (PcanHandle api)
           (PCAN_MESSAGE_FILTER api) (PCAN_FILTER_CLOSE api) = (s2, c2) ->
  SetValue api c2 (PcanHandle api)
           (PCAN_MESSAGE_FILTER api) (PCAN_FILTER_OPEN api) = (s3, c3) ->
  ((s1 = PCAN_ERROR_OK api /\ s2 = PCAN_ERROR_OK api /\ s3 = PCAN_ERROR_OK api) /\
   initialize_channel api w
   = (Returned tt,
      {| channel := c3;
         stdout := stdout w ++ [PyStr "Successfully initialized."] |})) \/
  (~ (s1 = PCAN_ERROR_OK api /\ s2 = PCAN_ERROR_OK api /\ s3 = PCAN_ERROR_OK api) /\
   exists e w', initialize_channel api w = (Raised e, w')).
Proof.
  intros H1 H2 H3.
  remember (initialize_channel api w) as r eqn:Hr.
  unfold initialize_channel in Hr.
  unfold bind at 1 in Hr. unfold call at 1 in Hr. rewrite H1 in Hr.
  destruct (Z.eqb_spec s1 (PCAN_ERROR_OK api)) as [E1 | E1]; cbn [negb] in Hr.
  2:{ unfold bind at 1 in Hr.
      destruct (abort_run "Cannot initialize. Please check the defines in the code."
                  s1 {| channel := c1; stdout := stdout w |})
        as (e & out & Hrun & _).
      rewrite Hrun in Hr. cbv beta iota in Hr. rewrite Hr. right.
      split; [tauto | eexists _, _; reflexivity]. }
  unfold bind at 1 in Hr. unfold ret at 1 in Hr. unfold bind at 1 in Hr.
  cbn [print channel stdout] in Hr.
  unfold bind at 1 in Hr. unfold call at 1 in Hr.
  cbn [channel stdout] in Hr. rewrite H2 in Hr.
  destruct (Z.eqb_spec s2 (PCAN_ERROR_OK api)) as [E2 | E2]; cbn [negb] in Hr.
  2:{ unfold bind at 1 in Hr.
      destruct (abort_run "Cannot set message filter to close." s2
                  {| channel := c2;
                     stdout := stdout w ++ [PyStr "Successfully initialized."] |})
        as (e & out & Hrun & _).
      rewrite Hrun in Hr. cbv beta iota in Hr. rewrite Hr. right.
      split; [tauto | eexists _, _; reflexivity]. }
  unfold bind at 1 in Hr. unfold ret at 1 in Hr.
  unfold bind at 1 in Hr. unfold call at 1 in Hr.
  cbn [channel stdout] in Hr. rewrite H3 in Hr.
  destruct (Z.eqb_spec s3 (PCAN_ERROR_OK api)) as [E3 | E3]; cbn [negb] in Hr.
  2:{ destruct (abort_run "Cannot set message filter to open." s3
                  {| channel := c3;
                     stdout := stdout w ++ [PyStr "Successfully initialized."] |})
        as (e & out & Hrun & _).
      rewrite Hrun in Hr. rewrite Hr. right.
      split; [tauto | eexists _, _; reflexivity]. }
  unfold ret in Hr. rewrite Hr. left. tauto.
Qed.

(** X11: [initialize_channel] returns exactly when [InitializeFD] and the
    two [SetValue] calls (filter closed, then filter opened) all report
    [PCAN_ERROR_OK]; it has then printed "Successfully initialized." and
    nothing else, and made no other call. *)
Theorem initialize_channel_returns_iff (w : World api) s1 c1 s2 c2 s3 c3 :
  InitializeFD api (channel w) (PcanHandle api) BitrateFD = (s1, c1) ->
  SetValue api c1 (PcanHandle api)
           (PCAN_MESSAGE_FILTER api) (PCAN_FILTER_CLOSE api) = (s2, c2) ->
  SetValue api c2 (PcanHandle api)
           (PCAN_MESSAGE_FILTER api) (PCAN_FILTER_OPEN api) = (s3, c3) ->
  (s1 = PCAN_ERROR_OK api /\ s2 = PCAN_ERROR_OK api /\ s3 = PCAN_ERROR_OK api ->
   initialize_channel api w
   = (Returned tt,
      {| channel := c3;
         stdout := stdout w ++ [PyStr "Successfully initialized."] |})) /\
  (fst (initialize_channel api w) = Returned tt ->
   s1 = PCAN_ERROR_OK api /\ s2 = PCAN_ERROR_OK api /\ s3 = PCAN_ERROR_OK api).
Proof.
  intros H1 H2 H3.
  destruct (initialize_channel_run w _ _ _ _ _ _ H1 H2 H3)
    as [[Hok Hrun] | [Hnot (e & w' & Hrun)]]; rewrite Hrun.
  - split; [reflexivity | now intros _].
  - split; [intros Hok; contradiction | cbn [fst]; intros Hf; discriminate Hf].
Qed.

(** X12: when [InitializeFD] reports anything but [PCAN_ERROR_OK], the
    script prints "Cannot initialize...", shows the status and ends with
    an exception ([SystemExit], or the [TypeError] of [show_status]),
    however many turns the loop would take: the filter is never set and no
    frame is ever read, the only further call being [GetErrorText]. *)
Theorem main_init_failed (w : World api) s1 c1 (turns : nat) :
  InitializeFD api (channel w) (PcanHandle api) BitrateFD = (s1, c1) ->
  s1 <> PCAN_ERROR_OK api ->
  exists e out,
    main api turns w
    = (Raised e,
       {| channel := snd (GetErrorText api c1 s1 0x09);
          stdout := stdout w
                    ++ PyStr "Cannot initialize. Please check the defines in the code."
                    :: PyStr equals :: out |}) /\
    (e = SystemExit \/ e = TypeError).
Proof.
  intros H1 Hs.
  unfold main, init, initialize_channel.
  unfold bind at 1. unfold bind at 1. unfold call at 1. rewrite H1.
  rewrite (proj2 (Z.eqb_neq _ _) Hs). cbn [negb].
  unfold bind at 1.
  destruct (abort_run "Cannot initialize. Please check the defines in the code."
              s1 {| channel := c1; stdout := stdout w |})
    as (e & out & Hrun & He).
  cbn [channel stdout] in Hrun. rewrite Hrun.
  now exists e, out.
Qed.

(** One turn of the loop returns or ends with [TypeError], and only adds
    to what was printed. *)
Lemma read_messages_body_cases (w : World api) :
  exists o w' out,
    read_messages_body api w = (o, w') /\
    stdout w' = (stdout w ++ out)%list /\
    (o = Returned tt \/ o = Raised TypeError).
Proof.
  unfold read_messages_body, bind. unfold call at 1.
  destruct (ReadFD api (channel w) (PcanHandle api)) as [[[s msg] ts] c1].
  cbn [fst snd].
  destruct (s =? PCAN_ERROR_QRCVEMPTY api); cbn [negb].
  - eexists _, _, _. split; [reflexivity |]. cbn [print stdout]. split; eauto.
  - destruct (s =? PCAN_ERROR_OK api).
    + rewrite process_message_fd_run. eexists _, _, _.
      split; [reflexivity |]. cbn [stdout]. split; eauto.
    + destruct (show_status_cases s {| channel := c1; stdout := stdout w |})
        as (o & out & Hrun & Ho).
      rewrite Hrun. eexists _, _, _. split; [reflexivity |].
      cbn [stdout]. split; eauto.
Qed.

(** X13: the receive loop has no way out of its own and never calls
    [sys.exit()]: after any number of turns it is still running or a
    [TypeError] (of [show_status]) has ended it, and what was printed
    before is still there, followed by what the turns added. *)
Theorem read_messages_only_type_error (turns : nat) (w : World api) :
  exists o w' out,
    read_messages api turns w = (o, w') /\
    stdout w' = (stdout w ++ out)%list /\
    (o = Returned tt \/ o = Raised TypeError).
Proof.
  revert w. induction turns as [|turns IH]; intros w.
  - exists (Returned tt), w, []. cbn. rewrite List.app_nil_r. auto.
  - cbn [read_messages]. unfold bind.
    destruct (read_messages_body_cases w) as (o & w1 & out1 & Hrun & Hout & Ho).
    rewrite Hrun. destruct Ho as [-> | ->].
    + destruct (IH w1) as (o2 & w2 & out2 & Hrun2 & Hout2 & Ho2).
      exists o2, w2, (out1 ++ out2)%list. rewrite Hrun2.
      split; [reflexivity |]. split; [| exact Ho2].
      now rewrite Hout2, Hout, List.app_assoc.
    + exists (Raised TypeError), w1, out1. auto.
Qed.

(** X14: with a channel whose error texts are always retrieved as
    [bytes], the receive loop never raises: it is still running after any
    number of turns, whatever frames and statuses are read. *)
Theorem read_messages_keeps_running (turns : nat) (w : World api) :
  (forall c error, exists b c',
      GetErrorText api c error 0x09 = ((PCAN_ERROR_OK api, PyBytes b), c')) ->
  fst (read_messages api turns w) = Returned tt.
Proof.
  intros Htext. revert w. induction turns as [|turns IH]; intros w.
  - reflexivity.
  - cbn [read_messages]. unfold bind at 1.
    assert (Hbody : exists w1, read_messages_body api w = (Returned tt, w1)).
    { unfold read_messages_body, bind. unfold call at 1.
      destruct (ReadFD api (channel w) (PcanHandle api)) as [[[s msg] ts] c1].
      cbn [fst snd].
      destruct (s =? PCAN_ERROR_QRCVEMPTY api); cbn [negb].
      - eexists. reflexivity.
      - destruct (s =? PCAN_ERROR_OK api).
        + rewrite process_message_fd_run. eexists. reflexivity.
        + destruct (Htext c1 s) as (b & c' & Hb).
          rewrite (show_status_run s {| channel := c1; stdout := stdout w |}
                     _ _ _ Hb).
          rewrite Z.eqb_refl. eexists. reflexivity. }
    destruct Hbody as [w1 ->]. apply IH.
Qed.

(** X15: a status that is neither "queue empty" nor OK and whose text
    cannot be retrieved ends the receive loop in that very turn with
    [TypeError], after the opening rule and the message; nothing is read
    after it. *)
Theorem read_messages_status_without_text
        (turns : nat) (w : World api) s msg ts c1 s' v c2 :
  ReadFD api (channel w) (PcanHandle api) = ((s, msg, ts), c1) ->
  s <> PCAN_ERROR_QRCVEMPTY api -> s <> PCAN_ERROR_OK api ->
  GetErrorText api c1 s 0x09 = ((s', v), c2) -> s' <> PCAN_ERROR_OK api ->
  read_messages api (S turns) w
  = (Raised TypeError,
     {| channel := c2;
        stdout := stdout w ++ [PyStr equals; text_not_retrieved s] |}).
Proof.
  intros Hread Hq Hok Htext Hs'.
  cbn [read_messages]. unfold bind at 1.
  unfold read_messages_body, bind. unfold call at 1. rewrite Hread.
  cbn [fst snd].
  rewrite (proj2 (Z.eqb_neq _ _) Hq), (proj2 (Z.eqb_neq _ _) Hok). cbn [negb].
  rewrite (show_status_run s {| channel := c1; stdout := stdout w |}
             _ _ _ Htext).
  now rewrite (proj2 (Z.eqb_neq _ _) Hs').
Qed.

(** X17: when the channel initializes, the script goes on into the
    receive loop with "Successfully initialized." as the only line printed
    so far, and the first read happens on the channel as the two filter
    calls (close, then open) left it. *)
Theorem main_after_init (w : World api) s1 c1 s2 c2 s3 c3 (turns : nat) :
  InitializeFD api (channel w) (PcanHandle api) BitrateFD = (s1, c1) ->
  SetValue api c1 (PcanHandle api)
           (PCAN_MESSAGE_FILTER api) (PCAN_FILTER_CLOSE api) = (s2, c2) ->
  SetValue api c2 (PcanHandle api)
           (PCAN_MESSAGE_FILTER api) (PCAN_FILTER_OPEN api) = (s3, c3) ->
  s1 = PCAN_ERROR_OK api -> s2 = PCAN_ERROR_OK api -> s3 = PCAN_ERROR_OK api ->
  main api turns w
  = read_messages api turns
      {| channel := c3;
         stdout := stdout w ++ [PyStr "Successfully initialized."] |}.
Proof.
  intros H1 H2 H3 E1 E2 E3. unfold main, init. unfold bind at 1.
  destruct (initialize_channel_run w _ _ _ _ _ _ H1 H2 H3)
    as [[_ Hrun] | [Hnot _]]; [| tauto].
  now rewrite Hrun.
Qed.

End ReaderProperties.

Lemma show_status_text_missing_witness :
  show_status (queue_api 0 text_missing) 0x80 (start 0 text_missing [])
  = (Raised TypeError,
     world_of 0 text_missing []
       [PyStr equals;
        PyStr "An error occurred. Error-code's text (80) couldn't be retrieved"]).
Proof.
  apply (show_status_text_missing (queue_api 0 text_missing) 0x80
           (start 0 text_missing []) 0x40000 (PyBytes "") []);
    [reflexivity | discriminate].
Defined.

Lemma show_status_text_found_witness :
  show_status (queue_api 0 text_found) 0x80 (start 0 text_found [])
  = (Returned tt,
     world_of 0 text_found []
       [PyStr equals;
        PyBytes "Bus error: an error counter reached the 'heavy' limit";
        PyStr "Suggested actions:";
        PyStr "1. Check CAN bus termination.";
        PyStr "2. Ensure all devices use the same bitrate.";
        PyStr "3. Inspect cabling for loose connections.";
        PyStr equals]).
Proof.
  apply (show_status_text_found (queue_api 0 text_found) 0x80
           (start 0 text_found [])
           "Bus error: an error counter reached the 'heavy' limit" []).
  reflexivity.
Defined.

Lemma initialize_channel_returns_iff_witness :
  initialize_channel (queue_api 0 text_found) (start 0 text_found [])
  = (Returned tt,
     world_of 0 text_found [] [PyStr "Successfully initialized."]).
Proof.
  apply (initialize_channel_returns_iff (queue_api 0 text_found)
           (start 0 text_found []) 0 [] 0 [] 0 []);
    try reflexivity.
  repeat split.
Defined.

Lemma main_init_failed_witness :
  exists e out,
    main (queue_api 0x4000000 text_found) 5 (start 0x4000000 text_found [])
    = (Raised e,
       world_of 0x4000000 text_found []
         (PyStr "Cannot initialize. Please check the defines in the code."
          :: PyStr equals :: out)) /\
    (e = SystemExit \/ e = TypeError).
Proof.
  apply (main_init_failed (queue_api 0x4000000 text_found)
           (start 0x4000000 text_found []) 0x4000000 [] 5);
    [reflexivity | discriminate].
Defined.

Lemma read_messages_keeps_running_witness :
  fst (read_messages (queue_api 0 text_found) 4
         (start 0 text_found [(0, sample_frame, 1500000); (0x80, sample_frame, 0)]))
  = Returned tt.
Proof.
  apply (read_messages_keeps_running (queue_api 0 text_found)).
  intros c error. eexists _, _. reflexivity.
Defined.

Lemma read_messages_status_without_text_witness :
  read_messages (queue_api 0 text_missing) 3
    (start 0 text_missing [(0x80, sample_frame, 0); (0, sample_frame, 7)])
  = (Raised TypeError,
     world_of 0 text_missing [(0, sample_frame, 7)]
       [PyStr equals; text_not_retrieved 0x80]).
Proof.
  apply (read_messages_status_without_text (queue_api 0 text_missing) 2
           (start 0 text_missing [(0x80, sample_frame, 0); (0, sample_frame, 7)])
           0x80 sample_frame 0 [(0, sample_frame, 7)]
           0x40000 (PyBytes "") [(0, sample_frame, 7)]);
    try reflexivity; discriminate.
Defined.

(** A frame and an empty queue, as the loop prints them. *)
Example read_messages_sample :
  stdout (snd (read_messages (queue_api 0 text_found) 2
                 (start 0 text_found [(0, sample_frame, 1500000)])))
  = [PyStr "Type: Standard Frame";
     PyStr "ID: 123";
     PyStr "Length: 2";
     PyStr "Time: 1.5";
     PyStr "Data: AB CD";
     PyStr dashes;
     PyStr "No messages received. Waiting..."].
Proof. vm_compute. reflexivity. Qed.

Lemma main_after_init_witness :
  main (queue_api 0 text_found) 2 (start 0 text_found [(0, sample_frame, 1500000)])
  = read_messages (queue_api 0 text_found) 2
      (world_of 0 text_found [(0, sample_frame, 1500000)]
         [PyStr "Successfully initialized."]).
Proof.
  apply (main_after_init (queue_api 0 text_found)
           (start 0 text_found [(0, sample_frame, 1500000)])
           0 [(0, sample_frame, 1500000)]
           0 [(0, sample_frame, 1500000)]
           0 [(0, sample_frame, 1500000)] 2);
    reflexivity.
Defined.
